(** * AI Competitor Tracker: a shallow embedding of [scraper.py]

    The development follows the source file top to bottom:
    - Python values, strings and dictionaries as the scraper uses them;
    - the outside world (file system, standard output, clock, network)
      as an explicit state threaded through a state-and-exception monad;
    - the methods of [CompetitorScraper], one definition per method;
    - the properties of extraction, aggregation and report rendering.

    Characters are code points below 256; floating point numbers and
    asynchronous interrupts ([KeyboardInterrupt], [SystemExit]) are outside
    the model. *)

From Stdlib Require Import ZArith Ascii String DecimalString Permutation.
From stdpp Require Import gmap strings list fin_maps.

Local Open Scope Z_scope.
Set Warnings "-register-all".

(** ** Python strings *)

Module Str.

Definition nl : string := String "010"%char EmptyString.

(** [str(n)] for a length. *)
Definition of_nat (n : nat) : string :=
  NilEmpty.string_of_uint (Nat.to_uint n).

(** [bool(s)]: a string is true when it is not empty. *)
Definition truthy (s : string) : bool :=
  match s with
  | EmptyString => false
  | String _ _ => true
  end.

(** [s.startswith(p)]. *)
Definition startswith (s p : string) : bool := String.prefix p s.

(** [c.isspace()] on the code points below 256: tab to carriage return,
    the four separators FS, GS, RS and US, the space, NEL and the
    no-break space. *)
Definition isspace (c : ascii) : bool :=
  let n := nat_of_ascii c in
  ((9 <=? n) && (n <=? 13) || (28 <=? n) && (n <=? 32)
   || (n =? 133) || (n =? 160))%nat.

Fixpoint lstrip (s : string) : string :=
  match s with
  | EmptyString => EmptyString
  | String c r => if isspace c then lstrip r else s
  end.

Fixpoint rstrip (s : string) : string :=
  match s with
  | EmptyString => EmptyString
  | String c r =>
      match rstrip r with
      | EmptyString => if isspace c then EmptyString else String c EmptyString
      | String _ _ as r' => String c r'
      end
  end.

(** [s.strip()]. *)
Definition strip (s : string) : string := rstrip (lstrip s).

(** [s.split(sep)] for a separator of one character: never an empty
    list, and an empty field between two adjacent separators. *)
Fixpoint split (sep : ascii) (s : string) : list string :=
  match s with
  | EmptyString => [EmptyString]
  | String c r =>
      if Ascii.eqb c sep then EmptyString :: split sep r
      else match split sep r with
           | [] => [String c EmptyString]
           | f :: fs => String c f :: fs
           end
  end.

(** [sep.join(parts)]. *)
Fixpoint join (sep : string) (parts : list string) : string :=
  match parts with
  | [] => EmptyString
  | [p] => p
  | p :: ps => p +:+ sep +:+ join sep ps
  end.

(** Every character of [s] satisfies [p]. *)
Fixpoint all (p : ascii -> bool) (s : string) : bool :=
  match s with
  | EmptyString => true
  | String c r => p c && all p r
  end.

(** The character [c] occurs in [s]. *)
Fixpoint mem (c : ascii) (s : string) : bool :=
  match s with
  | EmptyString => false
  | String a r => Ascii.eqb a c || mem c r
  end.

End Str.

(** ** Python values, exceptions and dictionaries *)

(** What [json.load] can return (numbers with a fraction left out) and
    what the dictionary literal of [get_default_config] is made of. *)
Inductive pyval : Type :=
| PyNone
| PyBool (b : bool)
| PyInt (z : Z)
| PyStr (s : string)
| PyList (l : list pyval)
| PyDict (items : list (string * pyval)).

(** The exception classes the scraper can meet; all derive from
    [Exception]. *)
Inductive exn_class : Type :=
| KeyError | TypeError | ValueError | OverflowError | AttributeError
| OSError | FileNotFoundError | IsADirectoryError | FileExistsError
| JSONDecodeError | RequestException | HTTPError
| ParserRejectedMarkup | SelectorSyntaxError.

Record exn : Type := mkExn { exn_cls : exn_class; exn_msg : string }.

Inductive result (A : Type) : Type :=
| Ok (a : A)
| Raise (e : exn).
Arguments Ok {A} a.
Arguments Raise {A} e.

(** The two [except] clauses of the source. *)
Inductive except_clause : Type :=
| ExceptException
| ExceptFileNotFoundError.

Definition catches (c : except_clause) (e : exn) : bool :=
  match c with
  | ExceptException => true
  | ExceptFileNotFoundError =>
      match exn_cls e with
      | FileNotFoundError => true
      | _ => false
      end
  end.

Module Py.

(** A [dict] keeps its keys in insertion order: an association list
    whose keys are distinct, looked up from the front. *)
Fixpoint lookup {V : Type} (k : string) (d : list (string * V)) : option V :=
  match d with
  | [] => None
  | (k', v) :: r => if String.eqb k' k then Some v else lookup k r
  end.

(** [k in d]. *)
Definition contains {V : Type} (k : string) (d : list (string * V)) : bool :=
  match lookup k d with
  | Some _ => true
  | None => false
  end.

(** [d[k] = v]: in place for a key that is there, at the end for a new
    one. *)
Fixpoint setitem {V : Type} (k : string) (v : V) (d : list (string * V))
  : list (string * V) :=
  match d with
  | [] => [(k, v)]
  | (k', v') :: r =>
      if String.eqb k' k then (k', v) :: r else (k', v') :: setitem k v r
  end.

(** [d[k].append(x)] for a key that is there; the list stored under
    the key is changed in place. *)
Fixpoint append_at {A : Type} (k : string) (x : A)
    (d : list (string * list A)) : list (string * list A) :=
  match d with
  | [] => []
  | (k', l) :: r =>
      if String.eqb k' k then (k', l ++ [x]) :: r
      else (k', l) :: append_at k x r
  end.

Definition type_name (v : pyval) : string :=
  match v with
  | PyNone => "NoneType"
  | PyBool _ => "bool"
  | PyInt _ => "int"
  | PyStr _ => "str"
  | PyList _ => "list"
  | PyDict _ => "dict"
  end.

(** [v[k]] for a string [k]. *)
Definition getitem (v : pyval) (k : string) : result pyval :=
  match v with
  | PyDict items =>
      match lookup k items with
      | Some x => Ok x
      | None => Raise (mkExn KeyError ("'" +:+ k +:+ "'"))
      end
  | PyList _ =>
      Raise (mkExn TypeError
               "list indices must be integers or slices, not str")
  | PyStr _ =>
      Raise (mkExn TypeError "string indices must be integers, not 'str'")
  | _ =>
      Raise (mkExn TypeError
               ("'" +:+ type_name v +:+ "' object is not subscriptable"))
  end.

(** [v.items()]. *)
Definition items (v : pyval) : result (list (string * pyval)) :=
  match v with
  | PyDict kvs => Ok kvs
  | _ =>
      Raise (mkExn AttributeError
               ("'" +:+ type_name v +:+ "' object has no attribute 'items'"))
  end.

(** [v.split('/')]. *)
Definition split_slash (v : pyval) : result (list string) :=
  match v with
  | PyStr s => Ok (Str.split "/" s)
  | _ =>
      Raise (mkExn AttributeError
               ("'" +:+ type_name v +:+ "' object has no attribute 'split'"))
  end.

(** [l[:n]] for an integer [n]: a negative [n] counts from the end. *)
Definition take_to {A : Type} (n : Z) (l : list A) : list A :=
  if n <? 0 then take (Z.to_nat (Z.of_nat (length l) + n)) l
  else take (Z.to_nat n) l.

(** [l[:stop]]. *)
Definition slice_to {A : Type} (l : list A) (stop : pyval) : result (list A) :=
  match stop with
  | PyNone => Ok l
  | PyInt n => Ok (take_to n l)
  | PyBool b => Ok (take_to (if b then 1 else 0) l)
  | _ =>
      Raise (mkExn TypeError
        "slice indices must be integers or None or have an __index__ method")
  end.

End Py.

(** ** Elements, articles and the libraries around the scraper *)

(** An element found by a selector, as far as the scraper looks at it:
    its text ([get_text()]) and its attributes ([get(name, default)]). *)
Record Tag : Type := mkTag {
  tag_text : string;
  tag_attrs : list (string * string)
}.

Definition get_text (t : Tag) : string := tag_text t.

Definition tag_get (t : Tag) (name default : string) : string :=
  match Py.lookup name (tag_attrs t) with
  | Some v => v
  | None => default
  end.

(** The dictionary built for every element, with its four keys. *)
Record Article : Type := mkArticle {
  title : string;
  url : string;
  source : string;
  scraped_at : string
}.

Record Response : Type := mkResponse {
  status_code : Z;
  reason : string;
  response_url : string;
  content : string
}.

(** The libraries the scraper calls: [datetime], [requests], [bs4] and
    [json]. *)
Class Platform : Type := {
  datetime : Type;
  (** [d.strftime('%Y-%m-%d')] *)
  strftime_Ymd : datetime -> string;
  (** [d.isoformat()] *)
  isoformat : datetime -> string;
  soup : Type;
  (** [BeautifulSoup(content, 'html.parser')] *)
  BeautifulSoup : string -> result soup;
  (** [soup.select(selector)], in document order *)
  soup_select : soup -> string -> result (list Tag);
  (** what [soup.select] raises for a selector that is not a string *)
  selector_refusal : pyval -> exn;
  (** what [session.get] raises for a URL that is not a string *)
  url_refusal : pyval -> exn;
  (** [json.load] on the text of a file; [None] for malformed JSON *)
  json_loads : string -> option pyval
}.

(** ** The world outside the process *)

Section World.
Context `{Platform}.

(** Regular files and directories by path, the lines printed so far,
    the clock (what the n-th call of [datetime.now()] returns), the
    network (what the n-th call of [session.get] comes to for a URL: a
    response, or the exception of a URL the library refuses, of a failed
    connection or of a timeout), the number of calls of [session.get] so
    far, the pauses taken by [time.sleep], and the system under it
    (whether it takes the n-th pause, of so many seconds, or refuses
    it). *)
Record World : Type := mkWorld {
  files : gmap string string;
  dirs : gset string;
  stdout : list string;
  clock : nat -> datetime;
  ticks : nat;
  network : nat -> string -> result Response;
  requests : nat;
  slept : list Z;
  sleeps : nat -> Z -> bool
}.

Definition set_files (f : gmap string string) (w : World) : World :=
  mkWorld f (dirs w) (stdout w) (clock w) (ticks w) (network w)
          (requests w) (slept w) (sleeps w).

Definition set_dirs (d : gset string) (w : World) : World :=
  mkWorld (files w) d (stdout w) (clock w) (ticks w) (network w)
          (requests w) (slept w) (sleeps w).

Definition set_stdout (o : list string) (w : World) : World :=
  mkWorld (files w) (dirs w) o (clock w) (ticks w) (network w)
          (requests w) (slept w) (sleeps w).

Definition set_ticks (n : nat) (w : World) : World :=
  mkWorld (files w) (dirs w) (stdout w) (clock w) n (network w)
          (requests w) (slept w) (sleeps w).

Definition set_requests (n : nat) (w : World) : World :=
  mkWorld (files w) (dirs w) (stdout w) (clock w) (ticks w) (network w)
          n (slept w) (sleeps w).

Definition set_slept (l : list Z) (w : World) : World :=
  mkWorld (files w) (dirs w) (stdout w) (clock w) (ticks w) (network w)
          (requests w) l (sleeps w).

(** A computation that may change the world and may raise. *)
Definition M (A : Type) : Type := World -> result A * World.

Definition ret {A : Type} (a : A) : M A := fun w => (Ok a, w).

Definition bind {A B : Type} (m : M A) (k : A -> M B) : M B :=
  fun w =>
    match m w with
    | (Ok a, w') => k a w'
    | (Raise e, w') => (Raise e, w')
    end.

(** A pure step that may raise. *)
Definition lift {A : Type} (r : result A) : M A := fun w => (r, w).

(** [try: body except clause as e: handler e]. What the body did to the
    world before it raised stays done. *)
Definition try_except {A : Type} (body : M A) (clause : except_clause)
    (handler : exn -> M A) : M A :=
  fun w =>
    match body w with
    | (Ok a, w') => (Ok a, w')
    | (Raise e, w') =>
        if catches clause e then handler e w' else (Raise e, w')
    end.

(** [for x in l: s = body x s]. *)
Fixpoint for_each {A S : Type} (l : list A) (body : A -> S -> M S) (s : S)
  : M S :=
  match l with
  | [] => ret s
  | x :: r => bind (body x s) (for_each r body)
  end.

(** [print(line)]. *)
Definition print (line : string) : M unit :=
  fun w => (Ok tt, set_stdout (stdout w ++ [line]) w).

(** [datetime.now()]. *)
Definition datetime_now : M datetime :=
  fun w => (Ok (clock w (ticks w)), set_ticks (S (ticks w)) w).

(** [self.session.get(url, timeout=10)]: the call is made, and
    counted, whatever the URL is. The library refuses a URL that is not
    a string; for a string the network tells what the call comes to. *)
Definition session_get (url : pyval) : M Response :=
  fun w =>
    (match url with
     | PyStr u => network w (requests w) u
     | _ => Raise (url_refusal url)
     end,
     set_requests (S (requests w)) w).

(** [response.raise_for_status()]. *)
Definition raise_for_status (r : Response) : M unit :=
  if (400 <=? status_code r) && (status_code r <? 500) then
    lift (Raise (mkExn HTTPError
      (Str.of_nat (Z.to_nat (status_code r)) +:+ " Client Error: "
         +:+ reason r +:+ " for url: " +:+ response_url r)))
  else if (500 <=? status_code r) && (status_code r <? 600) then
    lift (Raise (mkExn HTTPError
      (Str.of_nat (Z.to_nat (status_code r)) +:+ " Server Error: "
         +:+ reason r +:+ " for url: " +:+ response_url r)))
  else ret tt.

(** [soup.select(selector)] for a selector read from the configuration. *)
Definition select (s : soup) (selector : pyval) : result (list Tag) :=
  match selector with
  | PyStr sel => soup_select s sel
  | _ => Raise (selector_refusal selector)
  end.

(** [time.sleep(seconds)]: a negative pause and one beyond 64 bits of
    nanoseconds are refused by the interpreter, and any other pause is
    taken or refused by the system. *)
Definition time_sleep (seconds : pyval) : M unit :=
  fun w =>
    let pause (z : Z) :=
      if z <? 0 then
        (Raise (mkExn ValueError "sleep length must be non-negative"), w)
      else if 9223372036 <? z then
        (Raise (mkExn OverflowError
                  "timestamp too large to convert to C PyTime_t"), w)
      else if sleeps w (length (slept w)) z then
        (Ok tt, set_slept (slept w ++ [z]) w)
      else (Raise (mkExn OSError "[Errno 22] Invalid argument"), w) in
    match seconds with
    | PyInt z => pause z
    | PyBool b => pause (if b then 1 else 0)
    | _ =>
        (Raise (mkExn TypeError
           ("'" +:+ Py.type_name seconds
              +:+ "' object cannot be interpreted as an integer")), w)
    end.

(** [open(path, 'r')] followed by reading the whole file. *)
Definition read_file (path : string) : M string :=
  fun w =>
    match files w !! path with
    | Some text => (Ok text, w)
    | None =>
        if decide (path ∈ dirs w) then
          (Raise (mkExn IsADirectoryError
                    ("[Errno 21] Is a directory: '" +:+ path +:+ "'")), w)
        else
          (Raise (mkExn FileNotFoundError
             ("[Errno 2] No such file or directory: '" +:+ path +:+ "'")),
           w)
    end.

(** [os.makedirs(path, exist_ok=True)] for a path of one component. *)
Definition makedirs (path : string) : M unit :=
  fun w =>
    match files w !! path with
    | Some _ =>
        (Raise (mkExn FileExistsError
                  ("[Errno 17] File exists: '" +:+ path +:+ "'")), w)
    | None => (Ok tt, set_dirs ({[path]} ∪ dirs w) w)
    end.

(** [open(path, 'w', encoding='utf-8')] followed by [f.write(text)]. *)
Definition write_file (path text : string) : M unit :=
  fun w =>
    if decide (path ∈ dirs w) then
      (Raise (mkExn IsADirectoryError
                ("[Errno 21] Is a directory: '" +:+ path +:+ "'")), w)
    else (Ok tt, set_files (<[path := text]> (files w)) w).

End World.

Notation "x <- m ;; k" := (bind m (fun x => k))
  (at level 100, m at next level, right associativity).
Notation "m ;;; k" := (bind m (fun _ => k))
  (at level 100, right associativity).

(** ** The methods of [CompetitorScraper] *)

Section CompetitorScraper.
Context `{Platform}.

(** [get_default_config]. *)
Definition get_default_config : pyval :=
  PyDict [
    ("competitors", PyDict [
      ("OpenAI", PyDict [
        ("blog_url", PyStr "https://openai.com/blog");
        ("selectors", PyDict [
          ("title", PyStr "h3 a");
          ("date", PyStr ".published-date");
          ("summary", PyStr ".excerpt")])]);
      ("Google AI", PyDict [
        ("blog_url", PyStr "https://ai.googleblog.com/");
        ("selectors", PyDict [
          ("title", PyStr ".post-title a");
          ("date", PyStr ".published");
          ("summary", PyStr ".post-body")])])]);
    ("max_articles", PyInt 5);
    ("delay_between_requests", PyInt 2)].

(** [json.load(f)]. *)
Definition json_load (text : string) : result pyval :=
  match json_loads text with
  | Some v => Ok v
  | None => Raise (mkExn JSONDecodeError "Expecting value")
  end.

(** [load_config]. *)
Definition load_config (config_file : string) : M pyval :=
  try_except
    (text <- read_file config_file ;;
     lift (json_load text))
    ExceptFileNotFoundError
    (fun _ =>
       print ("Config file " +:+ config_file
                +:+ " not found. Using default settings.") ;;;
       ret get_default_config).

(** [article['url'] = u]. *)
Definition set_url (u : string) (a : Article) : Article :=
  mkArticle (title a) u (source a) (scraped_at a).

(** The dictionary literal at the head of the loop of
    [scrape_competitor], with the clock already read. *)
Definition new_article (name : string) (title_element : Tag)
    (now : datetime) : Article :=
  {| title := Str.strip (get_text title_element);
     url := tag_get title_element "href" "";
     source := name;
     scraped_at := isoformat now |}.

(** The body of the loop of [scrape_competitor] over the title
    elements: build the article, make its URL absolute, append it. *)
Definition scrape_element (name : string) (config : pyval)
    (title_element : Tag) (articles : list Article) : M (list Article) :=
  now <- datetime_now ;;
  let article := new_article name title_element now in
  article <-
    (if Str.truthy (url article)
        && negb (Str.startswith (url article) "http")
     then
       blog_url <- lift (Py.getitem config "blog_url") ;;
       segments <- lift (Py.split_slash blog_url) ;;
       let base_url := Str.join "/" (take 3 segments) in
       ret (set_url (base_url +:+ url article) article)
     else ret article) ;;
  ret (articles ++ [article]).

(** The body of the [try] of [scrape_competitor]. *)
Definition scrape_competitor_try (self_config : pyval) (name : string)
    (config : pyval) : M (list Article) :=
  blog_url <- lift (Py.getitem config "blog_url") ;;
  response <- session_get blog_url ;;
  raise_for_status response ;;;
  page <- lift (BeautifulSoup (content response)) ;;
  selectors <- lift (Py.getitem config "selectors") ;;
  selector <- lift (Py.getitem selectors "title") ;;
  found <- lift (select page selector) ;;
  max_articles <- lift (Py.getitem self_config "max_articles") ;;
  title_elements <- lift (Py.slice_to found max_articles) ;;
  articles <- for_each title_elements (scrape_element name config) [] ;;
  print ("Found " +:+ Str.of_nat (length articles)
           +:+ " articles from " +:+ name) ;;;
  ret articles.

(** [scrape_competitor]. *)
Definition scrape_competitor (self_config : pyval) (name : string)
    (config : pyval) : M (list Article) :=
  print ("Scraping " +:+ name +:+ "...") ;;;
  try_except
    (scrape_competitor_try self_config name config)
    ExceptException
    (fun e =>
       print ("Error scraping " +:+ name +:+ ": " +:+ exn_msg e) ;;;
       ret []).

(** [scrape_all_competitors]. *)
Definition scrape_all_competitors (self_config : pyval) : M (list Article) :=
  competitors <- lift (Py.getitem self_config "competitors") ;;
  items <- lift (Py.items competitors) ;;
  for_each items
    (fun '(name, config) all_articles =>
       articles <- scrape_competitor self_config name config ;;
       let all_articles := all_articles ++ articles in
       delay <- lift (Py.getitem self_config "delay_between_requests") ;;
       time_sleep delay ;;;
       ret all_articles)
    [].

(** The head of the report, up to the blank line after the summary. *)
Definition report_header (today : string) (count : nat) : string :=
  "# AI Competitive Intelligence Report" +:+ Str.nl
  +:+ "**Date**: " +:+ today +:+ Str.nl
  +:+ "**Articles Found**: " +:+ Str.of_nat count +:+ Str.nl
  +:+ Str.nl
  +:+ "## Summary" +:+ Str.nl
  +:+ "This report contains the latest updates from key AI companies and competitors."
  +:+ Str.nl
  +:+ Str.nl.

(** The first loop of [generate_report]: one step per article. *)
Definition group_step (by_source : list (string * list Article))
    (article : Article) : list (string * list Article) :=
  let by_source :=
    if negb (Py.contains (source article) by_source)
    then Py.setitem (source article) [] by_source
    else by_source in
  Py.append_at (source article) article by_source.

Definition group_by_source (articles : list Article)
  : list (string * list Article) :=
  fold_left group_step articles [].

(** The inner loop of the second loop: one step per article. *)
Definition render_article (report_content : string) (article : Article)
  : string :=
  let report_content :=
    report_content +:+ "### " +:+ title article +:+ Str.nl in
  let report_content :=
    if Str.truthy (url article)
    then report_content +:+ "**Link**: [" +:+ url article +:+ "]("
           +:+ url article +:+ ")" +:+ Str.nl
    else report_content in
  report_content +:+ "**Scraped**: " +:+ scraped_at article
    +:+ Str.nl +:+ Str.nl.

(** The second loop: one step per source. *)
Definition render_source (report_content : string)
    (item : string * list Article) : string :=
  let '(src, source_articles) := item in
  let report_content :=
    report_content +:+ "## " +:+ src +:+ " ("
      +:+ Str.of_nat (length source_articles) +:+ " articles)"
      +:+ Str.nl +:+ Str.nl in
  fold_left render_article source_articles report_content.

(** [generate_report]. *)
Definition generate_report (articles : list Article) : M string :=
  now <- datetime_now ;;
  let today := strftime_Ymd now in
  let report_content := report_header today (length articles) in
  let by_source := group_by_source articles in
  ret (fold_left render_source by_source report_content).

(** [save_report]. *)
Definition save_report (report_content : string) : M string :=
  makedirs "reports" ;;;
  now <- datetime_now ;;
  let today := strftime_Ymd now in
  let filename := "reports/ai_competitive_report_" +:+ today +:+ ".md" in
  write_file filename report_content ;;;
  print ("Report saved to " +:+ filename) ;;;
  ret filename.

(** [bool(articles)]. *)
Definition list_truthy {A : Type} (l : list A) : bool :=
  match l with
  | [] => false
  | _ :: _ => true
  end.

(** [run_daily_scrape]. *)
Definition run_daily_scrape (self_config : pyval) : M unit :=
  print "Starting daily competitive intelligence scrape..." ;;;
  articles <- scrape_all_competitors self_config ;;
  if list_truthy articles then
    report <- generate_report articles ;;
    filename <- save_report report ;;
    print "Daily scrape completed successfully!" ;;;
    print ("Report saved: " +:+ filename) ;;;
    print ("Total articles found: " +:+ Str.of_nat (length articles))
  else
    print "No articles found during scraping.".

(** [__init__]: the configuration is the only field the methods above
    read; the session keeps its headers for the whole run. *)
Definition init (config_file : string) : M pyval :=
  load_config config_file.

(** [main]. *)
Definition main : M unit :=
  self_config <- init "config.json" ;;
  run_daily_scrape self_config.

End CompetitorScraper.

(** ** A small concrete platform and world

    One competitor page with three links, one site that is down and one
    that answers 404; used to run the definitions on concrete inputs. *)

Module Demo.

Record stamp : Type := mkStamp { day : nat; second : nat }.

Definition acme_page : string := "<h3><a href='/posts/1'> First </a></h3>".

Definition acme_tags : list Tag := [
  mkTag "  First post " [("href", "/posts/1")];
  mkTag "Second" [("href", "https://acme.test/posts/2"); ("class", "x")];
  mkTag "   " []
].

#[export] Instance platform : Platform := {|
  datetime := stamp;
  strftime_Ymd := fun d => "2024-05-0" +:+ Str.of_nat (day d);
  isoformat := fun d =>
    "2024-05-0" +:+ Str.of_nat (day d) +:+ "T10:00:0"
      +:+ Str.of_nat (second d);
  soup := string;
  BeautifulSoup := fun text => Ok text;
  soup_select := fun page selector =>
    if String.eqb selector "" then
      Raise (mkExn SelectorSyntaxError "Expected a selector at position 0")
    else if String.eqb page acme_page then Ok acme_tags
    else Ok [];
  selector_refusal := fun selector =>
    mkExn AttributeError
      ("'" +:+ Py.type_name selector
         +:+ "' object has no attribute 'replace'");
  url_refusal := fun url =>
    mkExn RequestException "Invalid URL: No scheme supplied";
  json_loads := fun text =>
    if String.eqb text "{}" then Some (PyDict []) else None
|}.

Definition net (n : nat) (u : string) : result Response :=
  if String.eqb u "https://acme.test/blog/index" then
    Ok (mkResponse 200 "OK" u acme_page)
  else if String.eqb u "https://down.test/" then
    Raise (mkExn RequestException "Connection refused")
  else Ok (mkResponse 404 "Not Found" u "").

(** The system takes a pause of up to a day. *)
Definition up_to_a_day (n : nat) (seconds : Z) : bool := seconds <=? 86400.

Definition world : World :=
  mkWorld ∅ ∅ [] (fun n => mkStamp 1 n) 0 net 0 [] up_to_a_day.

Definition competitor (blog_url selector : string) : pyval :=
  PyDict [("blog_url", PyStr blog_url);
          ("selectors", PyDict [("title", PyStr selector)])].

Definition acme : pyval := competitor "https://acme.test/blog/index" "h3 a".
Definition down : pyval := competitor "https://down.test/" "h3 a".
Definition gone : pyval := competitor "https://gone.test/" "h3 a".

Definition config (competitors : list (string * pyval)) (max_articles : Z)
  : pyval :=
  PyDict [("competitors", PyDict competitors);
          ("max_articles", PyInt max_articles);
          ("delay_between_requests", PyInt 2)].

Definition article (t u s : string) : Article := mkArticle t u s "".

(** A site that is down followed by one that answers. *)
Definition mixed : pyval := config [("Down", down); ("Acme", acme)] 5.

(** Two sites that fail. *)
Definition quiet : pyval := config [("Down", down); ("Gone", gone)] 5.

(** The example of the specification for relative links. *)
Definition example_com : pyval :=
  competitor "https://example.com/blog/index" "h3 a".

Definition relative_link : Tag := mkTag "Post" [("href", "/posts/1")].

(** Later on the same day, with a file and some output already there. *)
Definition later : World :=
  mkWorld {["notes.txt" := "x"]} ∅ ["earlier output"]
          (fun n => mkStamp 1 (n + 3)) 4 net 2 [2] up_to_a_day.

Definition interleaved : list Article :=
  [article "a" "https://x.test/a" "X"; article "b" "" "Y";
   article "c" "https://x.test/c" "X"].

End Demo.

(** ** The specification's own words

    Definitions that follow the text of the specification, to be compared
    with the definitions taken from the source. *)

Module Spec.

(** The origin of a listing URL: its first three '/'-delimited
    segments. *)
Definition origin (listing : string) : string :=
  Str.join "/" (take 3 (Str.split "/" listing)).

(** URL normalization: an empty raw URL stays empty, one that begins
    with [http] is kept, any other is appended to the origin. *)
Definition normalized_url (listing raw : string) : string :=
  if String.eqb raw "" then ""
  else if String.prefix "http" raw then raw
  else origin listing +:+ raw.

(** The sources in the order in which each one is first met. *)
Fixpoint first_seen (sources : list string) : list string :=
  match sources with
  | [] => []
  | s :: rest => s :: filter (fun s' => s' <> s) (first_seen rest)
  end.

(** The articles of one source, in their order in the input. *)
Definition articles_of (s : string) (articles : list Article)
  : list Article :=
  filter (fun a => source a = s) articles.

(** The partition of the articles by source. *)
Definition groups (articles : list Article) : list (string * list Article) :=
  map (fun s => (s, articles_of s articles)) (first_seen (map source articles)).

(** One subsection per article: the title, a link line if and only if
    the URL is not empty, the capture time. *)
Definition article_text (a : Article) : string :=
  "### " +:+ title a +:+ Str.nl
  +:+ (if String.eqb (url a) "" then ""
       else "**Link**: [" +:+ url a +:+ "](" +:+ url a +:+ ")" +:+ Str.nl)
  +:+ "**Scraped**: " +:+ scraped_at a +:+ Str.nl +:+ Str.nl.

Definition concat_text (l : list string) : string :=
  fold_right String.append "" l.

(** One section per source: the heading with the source and its
    number of articles, then its articles. *)
Definition section_text (item : string * list Article) : string :=
  "## " +:+ fst item +:+ " (" +:+ Str.of_nat (length (snd item))
    +:+ " articles)" +:+ Str.nl +:+ Str.nl
    +:+ concat_text (map article_text (snd item)).

Definition body_text (sections : list (string * list Article)) : string :=
  concat_text (map section_text sections).

(** The number of articles over all sections. *)
Definition total (sections : list (string * list Article)) : nat :=
  list_sum (map (fun item => length (snd item)) sections).

(** A competitor whose scrape failed contributes no article. *)
Definition contribution (outcome : result (list Article)) : list Article :=
  match outcome with
  | Ok articles => articles
  | Raise _ => []
  end.

End Spec.

Section SpecOfRun.
Context `{Platform}.

(** The article the extractor emits for one element of a competitor
    whose listing URL is [listing], captured at time [now]. *)
Definition extracted_article (name listing : string) (el : Tag)
    (now : datetime) : Article :=
  {| title := Str.strip (get_text el);
     url := Spec.normalized_url listing (tag_get el "href" "");
     source := name;
     scraped_at := isoformat now |}.

(** One article per element, in the order of the elements; the clock
    has been read [t] times before the first one. *)
Fixpoint extracted (name listing : string) (clk : nat -> datetime)
    (t : nat) (els : list Tag) : list Article :=
  match els with
  | [] => []
  | el :: rest =>
      extracted_article name listing el (clk t)
        :: extracted name listing clk (S t) rest
  end.

(** In world [w] the listing page of the competitor is fetched with a
    status that is no error, parsed, and its title selector finds the
    elements [found] on it. *)
Definition page_yields (config : pyval) (w : World) (listing : string)
    (found : list Tag) : Prop :=
  exists response page selectors selector,
    Py.getitem config "blog_url" = Ok (PyStr listing)
    /\ network w (requests w) listing = Ok response
    /\ (status_code response < 400 \/ 600 <= status_code response)
    /\ BeautifulSoup (content response) = Ok page
    /\ Py.getitem config "selectors" = Ok selectors
    /\ Py.getitem selectors "title" = Ok (PyStr selector)
    /\ soup_select page selector = Ok found.

(** The world once [scrape_competitor] has announced the competitor. *)
Definition announced (name : string) (w : World) : World :=
  set_stdout (stdout w ++ ["Scraping " +:+ name +:+ "..."]) w.

(** The world after a successful scrape of a competitor that yielded
    [n] articles. *)
Definition scraped (name : string) (n : nat) (w : World) : World :=
  set_stdout
    (stdout w ++ ["Scraping " +:+ name +:+ "..."]
       ++ ["Found " +:+ Str.of_nat n +:+ " articles from " +:+ name])
    (set_ticks (ticks w + n) (set_requests (S (requests w)) w)).

(** What the fetch, the parse and the selection of one competitor come
    to: its articles, or the exception raised on the way. *)
Definition attempt (self_config : pyval) (name : string) (config : pyval)
    (w : World) : result (list Article) :=
  fst (scrape_competitor_try self_config name config (announced name w)).

(** The world after the pause that follows a competitor. *)
Definition paused (delay : Z) (w : World) : World :=
  set_slept (slept w ++ [delay]) w.

(** The attempts of a run over the competitors, in iteration order,
    each in the world its predecessors left. *)
Fixpoint attempts (self_config : pyval) (delay : Z)
    (items : list (string * pyval)) (w : World)
  : list (result (list Article)) :=
  match items with
  | [] => []
  | (name, config) :: rest =>
      attempt self_config name config w
        :: attempts self_config delay rest
             (paused delay (snd (scrape_competitor self_config name config w)))
  end.

(** A computation that leaves the files and the directories alone,
    whether it returns or raises. *)
Definition keeps_files {A : Type} (m : M A) : Prop :=
  forall w, files (snd (m w)) = files w /\ dirs (snd (m w)) = dirs w.

(** The world once [run_daily_scrape] has announced the run. *)
Definition started (w : World) : World :=
  set_stdout
    (stdout w ++ ["Starting daily competitive intelligence scrape..."]) w.

(** The path [save_report] writes to when it is called after
    [generate_report] in world [w]: its date is the second reading of
    the clock. *)
Definition saved_path (w : World) : string :=
  "reports/ai_competitive_report_"
    +:+ strftime_Ymd (clock w (S (ticks w))) +:+ ".md".

(** The date the report carries when it is rendered in world [w]. *)
Definition report_date (w : World) : string :=
  strftime_Ymd (clock w (ticks w)).

(** The whole report for a date and a sequence of articles. *)
Definition render (today : string) (articles : list Article) : string :=
  report_header today (length articles)
    +:+ Spec.body_text (Spec.groups articles).

End SpecOfRun.

(** ** Bookkeeping of a whole aggregation *)

Section SpecOfAggregate.
Context `{Platform}.

(** The competitor has a [blog_url], so [session.get] is called for
    it. *)
Definition has_blog_url (config : pyval) : bool :=
  match Py.getitem config "blog_url" with
  | Ok _ => true
  | Raise _ => false
  end.

(** The seconds of a delay that is an integer or a boolean. *)
Definition pause_seconds (delay : pyval) : option Z :=
  match delay with
  | PyInt z => Some z
  | PyBool b => Some (if b then 1 else 0)
  | _ => None
  end.

(** [time.sleep] takes a pause of so many seconds whenever it is asked
    to: the interpreter does, and so does the system. *)
Definition pause_accepted (w : World) (seconds : Z) : Prop :=
  0 <= seconds <= 9223372036 /\ forall n, sleeps w n seconds = true.

(** The world after the loop of [scrape_all_competitors] has gone over
    [items] with a pause of [delay] after each. *)
Fixpoint aggregated (self_config : pyval) (delay : Z)
    (items : list (string * pyval)) (w : World) : World :=
  match items with
  | [] => w
  | (name, config) :: rest =>
      aggregated self_config delay rest
        (paused delay (snd (scrape_competitor self_config name config w)))
  end.

(** The articles of a run, competitor by competitor. *)
Definition blocks (self_config : pyval) (delay : Z)
    (items : list (string * pyval)) (w : World)
  : list (string * list Article) :=
  combine (map fst items)
          (map Spec.contribution (attempts self_config delay items w)).

(** The line [scrape_competitor] prints last for an outcome. *)
Definition outcome_line (name : string) (outcome : result (list Article))
  : string :=
  match outcome with
  | Ok articles =>
      "Found " +:+ Str.of_nat (length articles) +:+ " articles from " +:+ name
  | Raise e => "Error scraping " +:+ name +:+ ": " +:+ exn_msg e
  end.

(** The path of the report of a day. *)
Definition report_path (today : string) : string :=
  "reports/ai_competitive_report_" +:+ today +:+ ".md".

End SpecOfAggregate.

(** ** More concrete configurations and worlds *)

Module Cases.


(** One competitor and the longest delay the interpreter lets through,
    which the system of [Demo.world] refuses. *)
Definition long_delay : pyval :=
  PyDict [("competitors", PyDict [("Acme", Demo.acme)]);
          ("max_articles", PyInt 5);
          ("delay_between_requests", PyInt 9223372036)].

(** A regular file stands where the directory of the reports goes. *)
Definition blocked : World := set_files {["reports" := "x"]} Demo.world.

(** A configuration file that is JSON but configures nothing. *)
Definition unconfigured : World :=
  set_files {["config.json" := "{}"]} Demo.world.

Definition first_post : Article :=
  mkArticle "First post" "https://acme.test/posts/1" "Acme"
            "2024-05-01T10:00:00".

Definition second_post : Article :=
  mkArticle "Second" "https://acme.test/posts/2" "Acme"
            "2024-05-01T10:00:01".

Definition blank_post : Article :=
  mkArticle "" "" "Acme" "2024-05-01T10:00:02".

End Cases.

(** * Properties *)

(** ** Strings *)

Section StringFacts.

Lemma append_nil (t : string) : "" +:+ t = t.
Proof. reflexivity. Qed.

Lemma append_cons (c : ascii) (s t : string) :
  String c s +:+ t = String c (s +:+ t).
Proof. reflexivity. Qed.

Lemma append_empty_r (s : string) : s +:+ "" = s.
Proof.
  induction s as [|c s IH]; [reflexivity |].
  now rewrite append_cons, IH.
Qed.

Lemma append_assoc (a b c : string) : (a +:+ b) +:+ c = a +:+ b +:+ c.
Proof.
  induction a as [|x a IH]; [reflexivity |].
  now rewrite !append_cons, IH.
Qed.

(** What [lstrip] removes is white space, and what is left does not
    start with white space. *)
Lemma lstrip_spec (s : string) :
  exists pre,
    s = pre +:+ Str.lstrip s
    /\ Str.all Str.isspace pre = true
    /\ forall c r, Str.lstrip s = String c r -> Str.isspace c = false.
Proof.
  induction s as [|c s (pre & Heq & Hpre & Hhd)]; simpl.
  - exists ""; repeat split; intros; discriminate.
  - destruct (Str.isspace c) eqn:Hc.
    + exists (String c pre). rewrite append_cons, <- Heq. simpl.
      rewrite Hc, Hpre. repeat split; auto.
    + exists "". rewrite append_nil. repeat split.
      intros c' r [= <- _]. exact Hc.
Qed.

Lemma rstrip_head (c : ascii) (s : string) :
  Str.isspace c = false -> exists r, Str.rstrip (String c s) = String c r.
Proof.
  intros Hc; simpl. destruct (Str.rstrip s); [rewrite Hc |]; eauto.
Qed.

(** What [rstrip] removes is white space, and what is left does not
    end with white space. *)
Lemma rstrip_spec (s : string) :
  exists post,
    s = Str.rstrip s +:+ post
    /\ Str.all Str.isspace post = true
    /\ forall r c, Str.rstrip s = r +:+ String c "" -> Str.isspace c = false.
Proof.
  induction s as [|c s (post & Heq & Hpost & Hlast)]; simpl.
  - exists ""; repeat split. intros [|? ?] ?; discriminate.
  - destruct (Str.rstrip s) as [|c' r'] eqn:Hr.
    + rewrite append_nil in Heq. subst s. destruct (Str.isspace c) eqn:Hc.
      * exists (String c post). rewrite append_nil. simpl.
        rewrite Hc, Hpost. repeat split. intros [|? ?] ?; discriminate.
      * exists post. rewrite append_cons, append_nil.
        repeat split; auto.
        intros [|x [|y r]] c0; rewrite ?append_cons, ?append_nil;
          intros [= ]; subst; auto.
    + exists post. rewrite append_cons, <- Heq. repeat split; auto.
      intros [|x r] c0; rewrite ?append_cons, ?append_nil; intros [= ].
      subst x. eapply Hlast; eauto.
Qed.

End StringFacts.

Section StripSplit.

(** [strip] removes white space at both ends and nothing else. *)
Lemma strip_spec (s : string) :
  (exists pre post,
      s = pre +:+ Str.strip s +:+ post
      /\ Str.all Str.isspace pre = true
      /\ Str.all Str.isspace post = true)
  /\ (forall c r, Str.strip s = String c r -> Str.isspace c = false)
  /\ (forall r c, Str.strip s = r +:+ String c "" -> Str.isspace c = false).
Proof.
  unfold Str.strip.
  destruct (lstrip_spec s) as (pre & Heq & Hpre & Hhd).
  destruct (rstrip_spec (Str.lstrip s)) as (post & Heq' & Hpost & Hlast).
  split; [| split].
  - exists pre, post. rewrite <- Heq'. auto.
  - intros c r Hs. destruct (Str.lstrip s) as [|c0 r0] eqn:Hl.
    + discriminate.
    + pose proof (Hhd c0 r0 eq_refl) as Hc0.
      destruct (rstrip_head c0 r0 Hc0) as (r1 & Hr1).
      rewrite Hr1 in Hs. now injection Hs as <- _.
  - exact Hlast.
Qed.

Lemma strip_blank (s : string) :
  Str.all Str.isspace s = true -> Str.strip s = "".
Proof.
  unfold Str.strip. induction s as [|c s IH]; simpl; [reflexivity |].
  intros [Hc Hs]%andb_prop. rewrite Hc. auto.
Qed.

Lemma split_not_nil (sep : ascii) (s : string) : Str.split sep s <> [].
Proof.
  destruct s as [|c s]; simpl; [discriminate |].
  destruct (Ascii.eqb c sep); [discriminate |].
  destruct (Str.split sep s); discriminate.
Qed.

(** Joining all the fields with the separator gives the string back. *)
Lemma join_split (sep : ascii) (s : string) :
  Str.join (String sep "") (Str.split sep s) = s.
Proof.
  induction s as [|c s IH]; [reflexivity |]. simpl.
  pose proof (split_not_nil sep s) as Hne.
  destruct (Ascii.eqb_spec c sep) as [-> | Hc].
  - destruct (Str.split sep s) as [|f fs] eqn:Hs; [congruence |].
    cbn [Str.join]. cbn [Str.join] in IH.
    now rewrite append_nil, append_cons, append_nil, IH.
  - destruct (Str.split sep s) as [|f fs] eqn:Hs; [congruence |].
    cbn [Str.join] in *. destruct fs as [|g gs].
    + now rewrite IH.
    + now rewrite append_cons, IH.
Qed.

(** No field holds the separator. *)
Lemma split_fields (sep : ascii) (s : string) :
  Forall (fun f => Str.mem sep f = false) (Str.split sep s).
Proof.
  induction s as [|c s IH]; simpl.
  - repeat constructor.
  - destruct (Ascii.eqb c sep) eqn:Hc.
    + constructor; [reflexivity | exact IH].
    + destruct (Str.split sep s) as [|f fs].
      * repeat constructor. simpl. now rewrite Hc.
      * inversion IH as [|? ? Hf Hfs]; subst.
        constructor; [| exact Hfs]. simpl. now rewrite Hc, Hf.
Qed.

End StripSplit.

(** ** Extraction *)

Section Extraction.
Context `{Platform}.

(** The URL step of the loop is the normalization of the
    specification. *)
Lemma url_step_refines (listing raw : string) :
  (if Str.truthy raw && negb (Str.startswith raw "http")
   then Str.join "/" (take 3 (Str.split "/" listing)) +:+ raw
   else raw)
  = Spec.normalized_url listing raw.
Proof.
  unfold Spec.normalized_url, Spec.origin, Str.startswith.
  destruct raw as [|c r]; [reflexivity |].
  cbn [Str.truthy andb]. change (String.eqb (String c r) "") with false.
  cbv iota. now destruct (String.prefix "http" (String c r)).
Qed.

(** One turn of the loop, for a competitor whose [blog_url] is a
    string: it reads the clock once and appends one article. *)
Lemma scrape_element_ok (name : string) (config : pyval) (listing : string)
    (el : Tag) (articles : list Article) (w : World) :
  Py.getitem config "blog_url" = Ok (PyStr listing) ->
  scrape_element name config el articles w
  = (Ok (articles
           ++ [extracted_article name listing el (clock w (ticks w))]),
     set_ticks (S (ticks w)) w).
Proof.
  intros Hurl. unfold scrape_element, bind, datetime_now, lift, ret.
  unfold extracted_article. rewrite <- url_step_refines.
  cbn [new_article url].
  destruct (Str.truthy (tag_get el "href" "")
            && negb (Str.startswith (tag_get el "href" "") "http"));
    [rewrite Hurl |]; reflexivity.
Qed.

Lemma for_each_scrape_element (name : string) (config : pyval)
    (listing : string) (els : list Tag) :
  Py.getitem config "blog_url" = Ok (PyStr listing) ->
  forall (articles : list Article) (w : World),
    for_each els (scrape_element name config) articles w
    = (Ok (articles ++ extracted name listing (clock w) (ticks w) els),
       set_ticks (ticks w + length els) w).
Proof.
  intros Hurl. induction els as [|el els IH]; intros articles w.
  - cbn [for_each extracted length]. unfold ret.
    rewrite app_nil_r, Nat.add_0_r. now destruct w.
  - cbn [for_each extracted length]. unfold bind at 1.
    rewrite (scrape_element_ok _ _ _ _ _ _ Hurl), IH.
    cbn [clock ticks set_ticks]. rewrite <- app_assoc.
    cbn [app]. now rewrite Nat.add_succ_r.
Qed.

Lemma length_extracted (name listing : string) (clk : nat -> datetime)
    (t : nat) (els : list Tag) :
  length (extracted name listing clk t els) = length els.
Proof.
  revert t. induction els as [|el els IH]; intros t; cbn; [| rewrite IH];
    reflexivity.
Qed.

Lemma length_take_to {A : Type} (n : Z) (l : list A) :
  0 <= n -> (length (Py.take_to n l) <= Z.to_nat n)%nat.
Proof.
  intros Hn. unfold Py.take_to.
  destruct (Z.ltb_spec n 0) as [Hlt | _]; [lia |].
  rewrite length_take. lia.
Qed.

Lemma take_to_nonneg {A : Type} (n : Z) (l : list A) :
  0 <= n -> Py.take_to n l = take (Z.to_nat n) l.
Proof.
  intros Hn. unfold Py.take_to.
  now destruct (Z.ltb_spec n 0) as [Hlt | _]; [lia |].
Qed.

End Extraction.

(** ** One competitor *)

Ltac world_simpl :=
  unfold scraped, announced, paused, started, set_files, set_dirs, set_stdout,
    set_ticks, set_requests, set_slept in *;
  cbn [files dirs stdout clock ticks network requests slept] in *.

Section OneCompetitor.
Context `{Platform}.

Lemma raise_for_status_ok (r : Response) :
  status_code r < 400 \/ 600 <= status_code r ->
  raise_for_status r = ret tt.
Proof.
  intros Hs. unfold raise_for_status.
  destruct (Z.leb_spec 400 (status_code r)), (Z.ltb_spec (status_code r) 500),
    (Z.leb_spec 500 (status_code r)), (Z.ltb_spec (status_code r) 600);
    cbn; try reflexivity; lia.
Qed.

Lemma raise_for_status_inv (r : Response) (w w' : World) :
  raise_for_status r w = (Ok tt, w') ->
  (status_code r < 400 \/ 600 <= status_code r) /\ w' = w.
Proof.
  unfold raise_for_status.
  destruct (Z.leb_spec 400 (status_code r)), (Z.ltb_spec (status_code r) 500),
    (Z.leb_spec 500 (status_code r)), (Z.ltb_spec (status_code r) 600);
    cbn; unfold lift, ret; intros [= ]; subst; split; auto; lia.
Qed.

(** The successful path of [scrape_competitor]: the page is fetched
    and parsed, the selector finds [found], and the articles are those
    of the elements the slice keeps. *)
Lemma scrape_competitor_try_ok (self_config : pyval) (name : string)
    (config : pyval) (w : World) (listing : string) (found els : list Tag)
    (stop : pyval) :
  page_yields config w listing found ->
  Py.getitem self_config "max_articles" = Ok stop ->
  Py.slice_to found stop = Ok els ->
  scrape_competitor_try self_config name config (announced name w)
  = (Ok (extracted name listing (clock w) (ticks w) els),
     scraped name (length els) w).
Proof.
  intros (response & page & selectors & selector
          & Hurl & Hnet & Hstatus & Hpage & Hsels & Hsel & Hfound)
         Hmax Hslice.
  unfold scrape_competitor_try.
  unfold bind at 1. unfold lift at 1. rewrite Hurl.
  unfold bind at 1. unfold session_get.
  cbn [network requests announced set_stdout]. rewrite Hnet.
  rewrite (raise_for_status_ok _ Hstatus).
  unfold bind at 1. unfold ret at 1.
  unfold bind at 1. unfold lift at 1. rewrite Hpage.
  unfold bind at 1. unfold lift at 1. rewrite Hsels.
  unfold bind at 1. unfold lift at 1. rewrite Hsel.
  unfold bind at 1. unfold lift at 1. cbn [select]. rewrite Hfound.
  unfold bind at 1. unfold lift at 1. rewrite Hmax.
  unfold bind at 1. unfold lift at 1. rewrite Hslice.
  unfold bind at 1. rewrite (for_each_scrape_element _ _ _ _ Hurl).
  cbn [app]. rewrite length_extracted. unfold bind, print, ret.
  world_simpl. now rewrite <- app_assoc.
Qed.

(** Whenever the body of the [try] returns, it went down the
    successful path. *)
Lemma scrape_competitor_try_inv (self_config : pyval) (name : string)
    (config : pyval) (w w' : World) (articles : list Article) :
  scrape_competitor_try self_config name config w = (Ok articles, w') ->
  exists listing found stop els,
    page_yields config w listing found
    /\ Py.getitem self_config "max_articles" = Ok stop
    /\ Py.slice_to found stop = Ok els
    /\ articles = extracted name listing (clock w) (ticks w) els.
Proof.
  unfold scrape_competitor_try. unfold bind at 1. unfold lift at 1.
  destruct (Py.getitem config "blog_url") as [u | e] eqn:Hurl;
    [| discriminate].
  unfold bind at 1. unfold session_get.
  destruct u as [| | | listing | |]; try discriminate.
  destruct (network w (requests w) listing) as [response | e] eqn:Hnet;
    [| discriminate].
  unfold bind at 1.
  destruct (raise_for_status response _) as [[[] | e] w1] eqn:Hstatus;
    [| discriminate].
  apply raise_for_status_inv in Hstatus as [Hstatus ->].
  unfold bind at 1. unfold lift at 1.
  destruct (BeautifulSoup (content response)) as [page | e] eqn:Hpage;
    [| discriminate].
  unfold bind at 1. unfold lift at 1.
  destruct (Py.getitem config "selectors") as [selectors | e] eqn:Hsels;
    [| discriminate].
  unfold bind at 1. unfold lift at 1.
  destruct (Py.getitem selectors "title") as [sel | e] eqn:Hsel;
    [| discriminate].
  unfold bind at 1. unfold lift at 1.
  destruct (select page sel) as [found | e] eqn:Hfound; [| discriminate].
  unfold bind at 1. unfold lift at 1.
  destruct (Py.getitem self_config "max_articles") as [stop | e] eqn:Hmax;
    [| discriminate].
  unfold bind at 1. unfold lift at 1.
  destruct (Py.slice_to found stop) as [els | e] eqn:Hslice;
    [| discriminate].
  unfold bind at 1. rewrite (for_each_scrape_element _ _ _ _ Hurl).
  unfold bind, print, ret. cbn [app]. intros [= <- _].
  destruct sel as [| | | selector | |]; try discriminate.
  exists listing, found, stop, els. repeat split; auto.
  exists response, page, selectors, selector. repeat split; auto.
Qed.

(** [scrape_competitor] never raises: it returns the articles of its
    attempt, and none when the attempt raised. *)
Lemma scrape_competitor_total (self_config : pyval) (name : string)
    (config : pyval) (w : World) :
  exists w',
    scrape_competitor self_config name config w
    = (Ok (Spec.contribution (attempt self_config name config w)), w').
Proof.
  unfold scrape_competitor, attempt, bind, print, try_except.
  fold (announced name w).
  destruct (scrape_competitor_try self_config name config (announced name w))
    as [[articles | e] w1]; cbn; eauto.
Qed.

End OneCompetitor.

(** ** What scraping leaves alone *)

Section Frame.
Context `{Platform}.

Lemma keeps_ret {A : Type} (a : A) : keeps_files (ret a).
Proof. intros w; split; reflexivity. Qed.

Lemma keeps_lift {A : Type} (r : result A) : keeps_files (lift r).
Proof. intros w; split; reflexivity. Qed.

Lemma keeps_bind {A B : Type} (m : M A) (k : A -> M B) :
  keeps_files m -> (forall a, keeps_files (k a)) -> keeps_files (bind m k).
Proof.
  intros Hm Hk w. unfold bind. specialize (Hm w).
  destruct (m w) as [[a | e] w1]; cbn in *; [| exact Hm].
  destruct (Hk a w1) as [Hf Hd]. destruct Hm as [Hf' Hd'].
  split; congruence.
Qed.

Lemma keeps_try {A : Type} (body : M A) (c : except_clause)
    (handler : exn -> M A) :
  keeps_files body -> (forall e, keeps_files (handler e)) ->
  keeps_files (try_except body c handler).
Proof.
  intros Hb Hh w. unfold try_except. specialize (Hb w).
  destruct (body w) as [[a | e] w1]; cbn in *; [exact Hb |].
  destruct (catches c e); [| exact Hb].
  destruct (Hh e w1) as [Hf Hd]. destruct Hb as [Hf' Hd'].
  split; congruence.
Qed.

Lemma keeps_for_each {A S : Type} (l : list A) (body : A -> S -> M S) :
  (forall x s, keeps_files (body x s)) ->
  forall s, keeps_files (for_each l body s).
Proof.
  intros Hb. induction l as [|x l IH]; intros s; cbn [for_each].
  - apply keeps_ret.
  - apply keeps_bind; auto.
Qed.

Lemma keeps_print (line : string) : keeps_files (print line).
Proof. intros w; split; reflexivity. Qed.

Lemma keeps_now : keeps_files datetime_now.
Proof. intros w; split; reflexivity. Qed.

Lemma keeps_session_get (u : pyval) : keeps_files (session_get u).
Proof. intros w; destruct u; split; reflexivity. Qed.

Lemma keeps_raise_for_status (r : Response) :
  keeps_files (raise_for_status r).
Proof.
  unfold raise_for_status.
  destruct (_ && _); [apply keeps_lift |].
  destruct (_ && _); [apply keeps_lift | apply keeps_ret].
Qed.

Lemma keeps_time_sleep (v : pyval) : keeps_files (time_sleep v).
Proof.
  intros w. unfold time_sleep.
  destruct v as [| b | z | | |]; try (split; reflexivity).
  - destruct (_ <? 0); [split; reflexivity |].
    destruct (_ <? _); [split; reflexivity |].
    destruct (sleeps _ _ _); split; reflexivity.
  - destruct (_ <? 0); [split; reflexivity |].
    destruct (_ <? _); [split; reflexivity |].
    destruct (sleeps _ _ _); split; reflexivity.
Qed.

Create HintDb keeps.
Hint Resolve keeps_ret keeps_lift keeps_print keeps_now keeps_session_get
  keeps_raise_for_status keeps_time_sleep : keeps.

Ltac keeps :=
  repeat first
    [ solve [auto with keeps]
    | apply keeps_bind; [| intros ?]
    | apply keeps_try; [| intros ?]
    | apply keeps_for_each; intros ? ? ].

Lemma keeps_scrape_element (name : string) (config : pyval) (el : Tag)
    (articles : list Article) :
  keeps_files (scrape_element name config el articles).
Proof.
  unfold scrape_element. keeps.
  destruct (_ && _); keeps.
Qed.

Hint Resolve keeps_scrape_element : keeps.

Lemma keeps_scrape_competitor (self_config : pyval) (name : string)
    (config : pyval) :
  keeps_files (scrape_competitor self_config name config).
Proof.
  unfold scrape_competitor, scrape_competitor_try. keeps.
Qed.

Hint Resolve keeps_scrape_competitor : keeps.

(** Aggregation writes no file and makes no directory. *)
Lemma keeps_scrape_all_competitors (self_config : pyval) :
  keeps_files (scrape_all_competitors self_config).
Proof.
  unfold scrape_all_competitors. keeps.
  destruct x as [name config]. keeps.
Qed.

End Frame.

(** ** Extraction: main results *)

Section ExtractionClaims.
Context `{Platform}.

(** C7. For every candidate element the title of the article is the
    text of the element without its leading and trailing white space:
    what is cut off at both ends is white space only and what is left
    neither starts nor ends with white space, so a text of nothing but
    white space gives the empty title. The raw URL is the [href]
    attribute, and the empty string when the element has none. Building
    the article cannot raise, and the loop appends it, with no change
    but to its URL, for every competitor whose listing URL is a string. *)
Theorem title_stripped_and_url_defaulted (name : string) (el : Tag)
    (now : datetime) :
  let a := new_article name el now in
  title a = Str.strip (get_text el)
  /\ (exists pre post,
        get_text el = pre +:+ title a +:+ post
        /\ Str.all Str.isspace pre = true
        /\ Str.all Str.isspace post = true)
  /\ (forall c r, title a = String c r -> Str.isspace c = false)
  /\ (forall r c, title a = r +:+ String c "" -> Str.isspace c = false)
  /\ (Str.all Str.isspace (get_text el) = true -> title a = "")
  /\ (Py.lookup "href" (tag_attrs el) = None -> url a = "")
  /\ (forall v, Py.lookup "href" (tag_attrs el) = Some v -> url a = v)
  /\ (forall config listing articles w,
        Py.getitem config "blog_url" = Ok (PyStr listing) ->
        clock w (ticks w) = now ->
        exists w',
          scrape_element name config el articles w
          = (Ok (articles
                   ++ [set_url (Spec.normalized_url listing (url a)) a]),
             w')).
Proof.
  cbn zeta. cbn [new_article title url].
  destruct (strip_spec (get_text el)) as (Hcut & Hhead & Hlast).
  split; [reflexivity |]. split; [exact Hcut |].
  split; [exact Hhead |]. split; [exact Hlast |].
  split; [apply strip_blank |].
  unfold tag_get. split; [now intros -> |]. split; [now intros v -> |].
  intros config listing articles w Hurl Hnow.
  rewrite (scrape_element_ok _ _ _ _ _ _ Hurl), Hnow. eauto.
Qed.

(** C3. The final URL of every extracted article: empty when the raw
    link is empty, the raw link itself when it begins with [http], and
    otherwise the first three '/'-delimited segments of the listing URL,
    joined by '/', followed by the raw link as it is. The segments are
    what lies between the '/' of the listing URL. The listing
    [https://example.com/blog/index] and the raw link [/posts/1] give
    [https://example.com/posts/1]. *)
Theorem url_normalized (name : string) (config : pyval) (listing : string)
    (el : Tag) (articles : list Article) (w : World) :
  Py.getitem config "blog_url" = Ok (PyStr listing) ->
  let raw := tag_get el "href" "" in
  let segments := Str.split "/" listing in
  exists a w',
    scrape_element name config el articles w = (Ok (articles ++ [a]), w')
    /\ url a = Spec.normalized_url listing raw
    /\ (raw = "" -> url a = "")
    /\ (String.prefix "http" raw = true -> url a = raw)
    /\ (raw <> "" -> String.prefix "http" raw = false ->
        url a = Str.join "/" (take 3 segments) +:+ raw)
    /\ Str.join "/" segments = listing
    /\ Forall (fun segment => Str.mem "/" segment = false) segments
    /\ Spec.normalized_url "https://example.com/blog/index" "/posts/1"
       = "https://example.com/posts/1".
Proof.
  intros Hurl raw segments.
  rewrite (scrape_element_ok _ _ _ _ _ _ Hurl).
  eexists _, _. split; [reflexivity |].
  cbn [extracted_article url]. fold raw.
  split; [reflexivity |]. unfold Spec.normalized_url, Spec.origin.
  split; [now intros -> |].
  split.
  { intros Hp. rewrite Hp. destruct raw; [discriminate | reflexivity]. }
  split.
  { intros Hne Hp. rewrite Hp. destruct raw; [congruence | reflexivity]. }
  split; [apply join_split |]. split; [apply split_fields |].
  reflexivity.
Qed.

(** C2. With a [max_articles] of [n >= 0], [scrape_competitor] returns
    at most [n] articles whatever the page and the selectors are, and on
    its successful path, where the title selector finds the elements
    [found] on the fetched page, the articles are those of the first [n]
    elements of [found], in the order of [found]. *)
Theorem at_most_max_articles (self_config : pyval) (name : string)
    (config : pyval) (w : World) (n : Z) :
  Py.getitem self_config "max_articles" = Ok (PyInt n) ->
  0 <= n ->
  exists articles w',
    scrape_competitor self_config name config w = (Ok articles, w')
    /\ (length articles <= Z.to_nat n)%nat
    /\ forall listing found,
        page_yields config w listing found ->
        articles
        = extracted name listing (clock w) (ticks w) (take (Z.to_nat n) found).
Proof.
  intros Hmax Hn.
  destruct (scrape_competitor_total self_config name config w) as [w' Hrun].
  eexists _, w'. split; [exact Hrun |]. unfold attempt. split.
  - destruct (scrape_competitor_try self_config name config (announced name w))
      as [[articles | e] w1] eqn:Htry; cbn [fst Spec.contribution length];
      [| lia].
    apply scrape_competitor_try_inv in Htry
      as (listing & found & stop & els & _ & Hstop & Hslice & ->).
    rewrite Hmax in Hstop. injection Hstop as <-.
    cbn [Py.slice_to] in Hslice. injection Hslice as <-.
    rewrite length_extracted. now apply length_take_to.
  - intros listing found Hpage.
    rewrite (scrape_competitor_try_ok _ _ _ _ _ _ _ _ Hpage Hmax eq_refl).
    cbn [fst Spec.contribution]. now rewrite take_to_nonneg.
Qed.

End ExtractionClaims.

(** ** What one competitor does to the world *)

Section CompetitorWorld.
Context `{Platform}.

Ltac branch :=
  solve [ intros ->; cbn [fst snd Spec.contribution length];
          unfold announced, set_stdout, set_ticks, set_requests;
          cbn [files dirs stdout clock ticks network requests slept sleeps];
          repeat split; rewrite ?app_nil_r, ?Nat.add_0_r;
          try reflexivity; try lia ].

(** The body of the [try], whatever its outcome: it never pauses, reads
    the clock once per article it returns, calls [session.get] once
    exactly when the competitor has a [blog_url], and prints one line
    exactly when it returns. *)
Lemma scrape_competitor_try_world (self_config : pyval) (name : string)
    (config : pyval) (w : World) :
  let r := scrape_competitor_try self_config name config w in
  slept (snd r) = slept w
  /\ clock (snd r) = clock w
  /\ network (snd r) = network w
  /\ sleeps (snd r) = sleeps w
  /\ ticks (snd r) = (ticks w + length (Spec.contribution (fst r)))%nat
  /\ requests (snd r)
     = (requests w + (if has_blog_url config then 1 else 0))%nat
  /\ stdout (snd r)
     = stdout w ++ match fst r with
                   | Ok _ => [outcome_line name (fst r)]
                   | Raise _ => []
                   end.
Proof.
  intros r. assert (Hr : r = scrape_competitor_try self_config name config w)
    by reflexivity.
  clearbody r. revert Hr. unfold scrape_competitor_try, has_blog_url.
  unfold bind at 1. unfold lift at 1.
  destruct (Py.getitem config "blog_url") as [u | e] eqn:Hurl; [| branch].
  unfold bind at 1. unfold session_get.
  destruct u as [| | | listing | |];
    [branch | branch | branch | | branch | branch].
  destruct (network w (requests w) listing) as [response | e] eqn:Hnet;
    [| branch].
  unfold bind at 1.
  destruct (raise_for_status response _) as [[[] | e] w1] eqn:Hstatus.
  2:{ revert Hstatus. unfold raise_for_status.
      destruct (_ && _); [unfold lift; intros [= <- <-]; branch |].
      destruct (_ && _); [unfold lift; intros [= <- <-]; branch |].
      discriminate. }
  apply raise_for_status_inv in Hstatus as [Hstatus ->].
  unfold bind at 1. unfold lift at 1.
  destruct (BeautifulSoup (content response)) as [page | e]; [| branch].
  unfold bind at 1. unfold lift at 1.
  destruct (Py.getitem config "selectors") as [selectors | e]; [| branch].
  unfold bind at 1. unfold lift at 1.
  destruct (Py.getitem selectors "title") as [sel | e]; [| branch].
  unfold bind at 1. unfold lift at 1.
  destruct (select page sel) as [found | e]; [| branch].
  unfold bind at 1. unfold lift at 1.
  destruct (Py.getitem self_config "max_articles") as [stop | e]; [| branch].
  unfold bind at 1. unfold lift at 1.
  destruct (Py.slice_to found stop) as [els | e]; [| branch].
  unfold bind at 1. rewrite (for_each_scrape_element _ _ _ _ Hurl).
  unfold bind, print, ret, outcome_line. cbn [app].
  intros ->. cbn [fst snd Spec.contribution].
  rewrite length_extracted.
  unfold set_stdout, set_ticks, set_requests.
  cbn [files dirs stdout clock ticks network requests slept sleeps].
  repeat split; lia.
Qed.

Lemma scrape_competitor_world (self_config : pyval) (name : string)
    (config : pyval) (w : World) :
  let outcome := attempt self_config name config w in
  let r := scrape_competitor self_config name config w in
  fst r = Ok (Spec.contribution outcome)
  /\ stdout (snd r)
     = stdout w ++ ["Scraping " +:+ name +:+ "..."; outcome_line name outcome]
  /\ requests (snd r)
     = (requests w + (if has_blog_url config then 1 else 0))%nat
  /\ ticks (snd r) = (ticks w + length (Spec.contribution outcome))%nat
  /\ slept (snd r) = slept w
  /\ clock (snd r) = clock w
  /\ network (snd r) = network w
  /\ sleeps (snd r) = sleeps w
  /\ files (snd r) = files w
  /\ dirs (snd r) = dirs w.
Proof.
  cbn zeta.
  destruct (keeps_scrape_competitor self_config name config w)
    as [Hfiles Hdirs].
  pose proof (scrape_competitor_try_world self_config name config
                (announced name w)) as Htry.
  cbn zeta in Htry. revert Hfiles Hdirs Htry.
  unfold scrape_competitor, attempt, bind, print, try_except.
  fold (announced name w).
  destruct (scrape_competitor_try self_config name config (announced name w))
    as [[articles | e] w1];
    cbn [fst snd catches Spec.contribution length outcome_line];
    intros Hfiles Hdirs
      (Hslept & Hclock & Hnet & Hsleeps & Hticks & Hreq & Hout);
    unfold ret, announced in *; unfold set_stdout in *;
    cbn [files dirs stdout clock ticks network requests slept sleeps
         fst snd] in *;
    rewrite Hout, <- ?app_assoc; repeat split; auto.
Qed.

End CompetitorWorld.

(** ** Aggregation *)

Section Aggregation.
Context `{Platform}.

Lemma time_sleep_ok (delay : pyval) (seconds : Z) (w : World) :
  pause_seconds delay = Some seconds ->
  0 <= seconds <= 9223372036 ->
  sleeps w (length (slept w)) seconds = true ->
  time_sleep delay w = (Ok tt, paused seconds w).
Proof.
  intros Hseconds [Hlo Hhi] Htaken. unfold time_sleep.
  destruct delay as [| b | z | | |]; try discriminate;
    injection Hseconds as Hseconds; rewrite Hseconds;
    destruct (Z.ltb_spec seconds 0); try lia;
    destruct (Z.ltb_spec 9223372036 seconds); try lia;
    now rewrite Htaken.
Qed.

Lemma pause_accepted_after (w w' : World) (seconds : Z) :
  sleeps w' = sleeps w ->
  pause_accepted w seconds -> pause_accepted w' seconds.
Proof. intros Heq [Hrange Htaken]. split; [exact Hrange |]. now rewrite Heq. Qed.

(** The loop of [scrape_all_competitors] extends the list it has with
    the contribution of every attempt, in order, when every pause is
    taken. *)
Lemma aggregate_loop (self_config delay : pyval) (seconds : Z)
    (items : list (string * pyval)) :
  Py.getitem self_config "delay_between_requests" = Ok delay ->
  pause_seconds delay = Some seconds ->
  forall (all_articles : list Article) (w : World),
    pause_accepted w seconds ->
    for_each items
      (fun '(name, config) all_articles =>
         articles <- scrape_competitor self_config name config ;;
         let all_articles := all_articles ++ articles in
         delay <- lift (Py.getitem self_config "delay_between_requests") ;;
         time_sleep delay ;;;
         ret all_articles)
      all_articles w
    = (Ok (all_articles
             ++ concat (map Spec.contribution
                          (attempts self_config seconds items w))),
       aggregated self_config seconds items w).
Proof.
  intros Hdelay Hseconds.
  match goal with |- context [for_each _ ?f] => set (body := f) end.
  induction items as [| [name config] items IH];
    intros all_articles w Haccepted.
  - cbn. now rewrite app_nil_r.
  - cbn [for_each attempts aggregated map concat].
    destruct (scrape_competitor_world self_config name config w)
      as (Hrun & _ & _ & _ & Hslept & _ & _ & Hsleeps & _).
    cbn zeta in Hrun, Hslept, Hsleeps.
    destruct (scrape_competitor self_config name config w)
      as [res w1] eqn:Hsc.
    cbn [fst snd] in *. subst res.
    unfold bind at 1. unfold body at 1.
    unfold bind at 1. rewrite Hsc.
    unfold bind at 1. unfold lift at 1. rewrite Hdelay.
    unfold bind at 1.
    rewrite (time_sleep_ok delay seconds w1 Hseconds).
    + unfold ret at 1. rewrite IH.
      * now rewrite <- app_assoc.
      * apply (pause_accepted_after w); [| exact Haccepted].
        exact Hsleeps.
    + apply Haccepted.
    + rewrite Hsleeps. apply Haccepted.
Qed.

Lemma scrape_all_competitors_exact (self_config : pyval)
    (items : list (string * pyval)) (delay : pyval) (seconds : Z)
    (w : World) :
  Py.getitem self_config "competitors" = Ok (PyDict items) ->
  Py.getitem self_config "delay_between_requests" = Ok delay ->
  pause_seconds delay = Some seconds ->
  pause_accepted w seconds ->
  scrape_all_competitors self_config w
  = (Ok (concat (map Spec.contribution
                   (attempts self_config seconds items w))),
     aggregated self_config seconds items w).
Proof.
  intros Hcompetitors Hdelay Hseconds Haccepted.
  unfold scrape_all_competitors.
  unfold bind at 1. unfold lift at 1. rewrite Hcompetitors.
  unfold bind at 1. unfold lift at 1. cbn [Py.items].
  exact (aggregate_loop self_config delay seconds items Hdelay Hseconds
           [] w Haccepted).
Qed.

(** C1. For every competitor mapping, [scrape_competitor] never raises:
    whatever the fetch, the parse or the selection of a competitor does,
    it returns the articles of the attempt, and none when the attempt
    raised. With a delay that [time.sleep] takes whenever it is asked
    to, [scrape_all_competitors] therefore returns, and what it returns
    is the articles of the attempts that succeeded, in the iteration
    order of the mapping. *)
Theorem aggregation_isolates_failures (self_config : pyval)
    (items : list (string * pyval)) (delay : Z) (w : World) :
  Py.getitem self_config "competitors" = Ok (PyDict items) ->
  Py.getitem self_config "delay_between_requests" = Ok (PyInt delay) ->
  0 <= delay <= 9223372036 ->
  (forall n, sleeps w n delay = true) ->
  (forall name config w0,
     exists w1,
       scrape_competitor self_config name config w0
       = (Ok (Spec.contribution (attempt self_config name config w0)), w1))
  /\ exists w',
       scrape_all_competitors self_config w
       = (Ok (concat (map Spec.contribution
                        (attempts self_config delay items w))),
          w').
Proof.
  intros Hcompetitors Hdelay Hrange Htaken. split.
  - intros name config w0. apply scrape_competitor_total.
  - eexists.
    apply (scrape_all_competitors_exact self_config items (PyInt delay));
      [exact Hcompetitors | exact Hdelay | reflexivity |].
    split; assumption.
Qed.

End Aggregation.

(** ** Grouping by source *)

Section Grouping.

Lemma first_seen_elem (x : string) (l : list string) :
  x ∈ Spec.first_seen l <-> x ∈ l.
Proof.
  induction l as [|y l IH]; cbn [Spec.first_seen]; [reflexivity |].
  rewrite !elem_of_cons, list_elem_of_filter, IH.
  destruct (decide (x = y)); tauto.
Qed.

Lemma first_seen_NoDup (l : list string) : NoDup (Spec.first_seen l).
Proof.
  induction l as [|y l IH]; cbn [Spec.first_seen]; [constructor |].
  apply NoDup_cons. split.
  - rewrite list_elem_of_filter. tauto.
  - now apply NoDup_filter.
Qed.

(** Going through the input from the left, a source that has not been
    met yet goes to the end of the order, and a source that has been met
    changes nothing. *)
Lemma first_seen_snoc (l : list string) (x : string) :
  Spec.first_seen (l ++ [x])
  = Spec.first_seen l ++ (if decide (x ∈ l) then [] else [x]).
Proof.
  induction l as [|y l IH]; [reflexivity |].
  cbn [app Spec.first_seen]. rewrite IH, filter_app. do 2 f_equal.
  destruct (decide (x ∈ l)) as [Hin | Hout].
  - rewrite decide_True by (apply elem_of_cons; auto). reflexivity.
  - destruct (decide (x = y)) as [-> | Hne].
    + rewrite decide_True by (apply elem_of_cons; auto).
      rewrite filter_cons_False by tauto. reflexivity.
    + rewrite decide_False by (rewrite elem_of_cons; tauto).
      rewrite filter_cons_True by exact Hne. reflexivity.
Qed.

Lemma articles_of_snoc (s : string) (l : list Article) (a : Article) :
  Spec.articles_of s (l ++ [a])
  = Spec.articles_of s l ++ (if decide (source a = s) then [a] else []).
Proof.
  unfold Spec.articles_of. now rewrite filter_app.
Qed.

Lemma articles_of_none (s : string) (l : list Article) :
  s ∉ map source l -> Spec.articles_of s l = [].
Proof.
  unfold Spec.articles_of. induction l as [|a l IH]; [reflexivity |].
  cbn [map]. rewrite not_elem_of_cons. intros [Hne Hout].
  rewrite filter_cons_False by congruence. auto.
Qed.

Lemma lookup_keyed {V : Type} (f : string -> V) (k : string)
    (ks : list string) :
  Py.lookup k (map (fun s => (s, f s)) ks)
  = if decide (k ∈ ks) then Some (f k) else None.
Proof.
  induction ks as [|s ks IH]; [reflexivity |]. cbn [map Py.lookup].
  destruct (String.eqb_spec s k) as [-> | Hne].
  - rewrite decide_True by (apply elem_of_cons; auto). reflexivity.
  - rewrite IH. destruct (decide (k ∈ ks)) as [Hin | Hout].
    + rewrite decide_True by (apply elem_of_cons; auto). reflexivity.
    + rewrite decide_False; [reflexivity |].
      rewrite elem_of_cons. intros [-> | ?]; tauto.
Qed.

Lemma setitem_fresh {V : Type} (k : string) (v : V)
    (d : list (string * V)) :
  Py.lookup k d = None -> Py.setitem k v d = d ++ [(k, v)].
Proof.
  induction d as [| [k' v'] d IH]; [reflexivity |]. cbn [Py.lookup Py.setitem].
  destruct (String.eqb k' k); [discriminate |].
  intros Hnone. now rewrite IH.
Qed.

Lemma append_at_end {A : Type} (k : string) (x : A) (l : list A)
    (d : list (string * list A)) :
  Py.lookup k d = None ->
  Py.append_at k x (d ++ [(k, l)]) = d ++ [(k, l ++ [x])].
Proof.
  induction d as [| [k' v'] d IH]; cbn [Py.lookup Py.append_at app].
  - now rewrite String.eqb_refl.
  - destruct (String.eqb k' k); [discriminate |].
    intros Hnone. now rewrite IH.
Qed.

Lemma append_at_keyed {A : Type} (f : string -> list A) (k : string) (x : A)
    (ks : list string) :
  NoDup ks ->
  Py.append_at k x (map (fun s => (s, f s)) ks)
  = map (fun s => (s, f s ++ (if decide (k = s) then [x] else []))) ks.
Proof.
  induction ks as [|s ks IH]; [reflexivity |].
  rewrite NoDup_cons. intros [Hout Hnd]. cbn [map Py.append_at].
  destruct (String.eqb_spec s k) as [-> | Hne].
  - rewrite decide_True by reflexivity. f_equal.
    clear IH Hnd. induction ks as [|s ks IH]; [reflexivity |].
    apply not_elem_of_cons in Hout as [Hne Hout]. cbn [map].
    rewrite decide_False by exact Hne. rewrite app_nil_r.
    now rewrite <- IH.
  - rewrite decide_False by congruence. rewrite app_nil_r.
    now rewrite IH.
Qed.

(** One step of the grouping loop takes the partition of the articles
    seen so far to the partition with one article more. *)
Lemma group_step_groups (l : list Article) (a : Article) :
  group_step (Spec.groups l) a = Spec.groups (l ++ [a]).
Proof.
  unfold group_step, Spec.groups, Py.contains.
  rewrite (map_app source l [a]). cbn [map].
  rewrite first_seen_snoc, map_app, lookup_keyed.
  destruct (decide (source a ∈ Spec.first_seen (map source l)))
    as [Hin | Hout].
  - cbn [negb]. rewrite first_seen_elem in Hin.
    rewrite decide_True by exact Hin. cbn [map]. rewrite app_nil_r.
    rewrite append_at_keyed by apply first_seen_NoDup.
    apply map_ext. intros s. now rewrite articles_of_snoc.
  - cbn [negb]. rewrite first_seen_elem in Hout.
    rewrite decide_False by exact Hout. cbn [map].
    rewrite setitem_fresh.
    2:{ rewrite lookup_keyed. rewrite decide_False; [reflexivity |].
        now rewrite first_seen_elem. }
    rewrite append_at_end.
    2:{ rewrite lookup_keyed. rewrite decide_False; [reflexivity |].
        now rewrite first_seen_elem. }
    rewrite articles_of_snoc, decide_True by reflexivity.
    rewrite (articles_of_none _ _ Hout). cbn [app]. f_equal.
    apply map_ext_in. intros s Hs%list_elem_of_In.
    apply (proj1 (first_seen_elem _ _)) in Hs.
    rewrite articles_of_snoc. rewrite decide_False; [now rewrite app_nil_r |].
    intros <-. tauto.
Qed.

(** The grouping loop computes the partition of the specification. *)
Lemma group_by_source_groups (l : list Article) :
  group_by_source l = Spec.groups l.
Proof.
  unfold group_by_source. induction l as [|a l IH] using rev_ind;
    [reflexivity |].
  now rewrite fold_left_app, IH; cbn [fold_left]; rewrite group_step_groups.
Qed.

End Grouping.

(** ** Rendering *)

Section Rendering.
Context `{Platform}.

Lemma render_article_text (report_content : string) (a : Article) :
  render_article report_content a = report_content +:+ Spec.article_text a.
Proof.
  unfold render_article, Spec.article_text.
  destruct (url a) as [|c u]; cbn [Str.truthy];
    [change (String.eqb "" "") with true
    | change (String.eqb (String c u) "") with false];
    cbv iota; now rewrite !append_assoc.
Qed.

Lemma render_articles_text (l : list Article) (report_content : string) :
  fold_left render_article l report_content
  = report_content +:+ Spec.concat_text (map Spec.article_text l).
Proof.
  revert report_content. induction l as [|a l IH]; intros report_content.
  - cbn. now rewrite append_empty_r.
  - cbn [fold_left map Spec.concat_text fold_right].
    now rewrite IH, render_article_text, append_assoc.
Qed.

Lemma render_source_text (report_content : string)
    (item : string * list Article) :
  render_source report_content item
  = report_content +:+ Spec.section_text item.
Proof.
  destruct item as [src l]. unfold render_source, Spec.section_text.
  cbn [fst snd]. rewrite render_articles_text. now rewrite !append_assoc.
Qed.

Lemma render_sources_text (sections : list (string * list Article))
    (report_content : string) :
  fold_left render_source sections report_content
  = report_content +:+ Spec.body_text sections.
Proof.
  unfold Spec.body_text. revert report_content.
  induction sections as [|item sections IH]; intros report_content.
  - cbn. now rewrite append_empty_r.
  - cbn [fold_left map Spec.concat_text fold_right].
    now rewrite IH, render_source_text, append_assoc.
Qed.

(** [generate_report] reads the clock once, changes nothing else, and
    returns the header followed by the sections of the partition. *)
Lemma generate_report_render (articles : list Article) (w : World) :
  generate_report articles w
  = (Ok (render (report_date w) articles), set_ticks (S (ticks w)) w).
Proof.
  unfold generate_report, bind, datetime_now, ret, render, report_date.
  now rewrite render_sources_text, group_by_source_groups.
Qed.

End Rendering.

(** ** The sections are a partition *)

Section Partition.

Lemma total_length (sections : list (string * list Article)) :
  Spec.total sections = length (concat (map snd sections)).
Proof.
  unfold Spec.total. induction sections as [| [s l] sections IH];
    [reflexivity |].
  cbn [map concat snd]. rewrite length_app, <- IH. reflexivity.
Qed.

Lemma lookup_setitem {V : Type} (k : string) (v : V) (d : list (string * V)) :
  Py.lookup k (Py.setitem k v d) = Some v.
Proof.
  induction d as [| [k' v'] d IH]; cbn [Py.setitem Py.lookup].
  - now rewrite String.eqb_refl.
  - destruct (String.eqb k' k) eqn:Hk; cbn [Py.lookup]; now rewrite Hk.
Qed.

Lemma append_at_perm {A : Type} (k : string) (x : A)
    (d : list (string * list A)) :
  Py.lookup k d <> None ->
  Permutation (concat (map snd (Py.append_at k x d)))
              (x :: concat (map snd d)).
Proof.
  induction d as [| [k' l] d IH]; cbn [Py.lookup Py.append_at];
    [congruence |].
  destruct (String.eqb k' k); intros Hk; cbn [map concat snd].
  - rewrite <- app_assoc. cbn [app].
    symmetry. apply Permutation_middle.
  - rewrite (IH Hk). symmetry. apply Permutation_middle.
Qed.

(** One step of the grouping loop puts the article into one section. *)
Lemma group_step_perm (d : list (string * list Article)) (a : Article) :
  Permutation (concat (map snd (group_step d a)))
              (a :: concat (map snd d)).
Proof.
  unfold group_step, Py.contains.
  destruct (Py.lookup (source a) d) as [l |] eqn:Hk; cbn [negb].
  - apply append_at_perm. congruence.
  - rewrite append_at_perm by (rewrite lookup_setitem; congruence).
    rewrite (setitem_fresh _ _ _ Hk), map_app, concat_app.
    cbn. now rewrite !app_nil_r.
Qed.

Lemma group_by_source_perm (l : list Article) :
  Permutation (concat (map snd (group_by_source l))) l.
Proof.
  unfold group_by_source. induction l as [|a l IH] using rev_ind;
    [reflexivity |].
  rewrite fold_left_app. cbn [fold_left].
  rewrite group_step_perm, IH. apply Permutation_cons_append.
Qed.

Lemma groups_keys (l : list Article) :
  map fst (Spec.groups l) = Spec.first_seen (map source l).
Proof.
  unfold Spec.groups. rewrite map_map. cbn [fst]. apply map_id.
Qed.

Lemma groups_elem (l : list Article) (item : string * list Article) :
  item ∈ Spec.groups l <->
  fst item ∈ map source l /\ snd item = Spec.articles_of (fst item) l.
Proof.
  unfold Spec.groups. rewrite list_elem_of_In, in_map_iff. split.
  - intros (s & <- & Hs%list_elem_of_In). cbn [fst snd].
    split; [now apply first_seen_elem | reflexivity].
  - intros [Hs Heq]. exists (fst item). split.
    + destruct item; cbn [fst snd] in *. now subst.
    + now apply list_elem_of_In, first_seen_elem.
Qed.

End Partition.

(** ** The report: main results *)

Section ReportClaims.
Context `{Platform}.

Lemma interleaved_sources (a1 a2 a3 : Article) :
  source a1 = source a3 -> source a2 <> source a1 ->
  group_by_source [a1; a2; a3]
  = [(source a1, [a1; a3]); (source a2, [a2])].
Proof.
  intros H13 H21. unfold group_by_source. cbn [fold_left].
  assert (H12 : String.eqb (source a1) (source a2) = false)
    by (apply String.eqb_neq; congruence).
  unfold group_step at 3. cbn. rewrite String.eqb_refl.
  unfold group_step at 2. unfold Py.contains. cbn. rewrite H12. cbn.
  rewrite H12, String.eqb_refl.
  unfold group_step, Py.contains. cbn. rewrite <- H13, String.eqb_refl.
  cbn. now rewrite String.eqb_refl.
Qed.

(** C4. [generate_report] partitions the articles by source. The
    sections come in the order in which each source is first met in the
    input: a source that was not met before goes to the end of the order
    and a source met before changes nothing, whatever the names are. The
    section of a source lists the articles of that source in their order
    in the input. The report is the header followed by these sections in
    this order. Sources [X, Y, X] give the sections [X, Y] with both
    articles of [X] under [X], in their input order. *)
Theorem sections_in_first_seen_order (articles : list Article) (w : World) :
  let sections := group_by_source articles in
  map fst sections = Spec.first_seen (map source articles)
  /\ sections
     = map (fun s => (s, filter (fun a => source a = s) articles))
           (Spec.first_seen (map source articles))
  /\ (forall (seen : list string) (s : string),
        Spec.first_seen (seen ++ [s])
        = Spec.first_seen seen ++ (if decide (s ∈ seen) then [] else [s]))
  /\ generate_report articles w
     = (Ok (report_header (report_date w) (length articles)
              +:+ Spec.body_text sections),
        set_ticks (S (ticks w)) w)
  /\ (forall a1 a2 a3,
        source a1 = source a3 -> source a2 <> source a1 ->
        group_by_source [a1; a2; a3]
        = [(source a1, [a1; a3]); (source a2, [a2])]).
Proof.
  cbn zeta. rewrite group_by_source_groups.
  split; [apply groups_keys |]. split; [reflexivity |].
  split; [apply first_seen_snoc |].
  split; [apply generate_report_render |].
  apply interleaved_sources.
Qed.

(** C9. The count in the header of the report is the length of the
    input, and it is the sum of the counts in the section headings: the
    sections have distinct sources, every article of a section has the
    source of the section, and the sections together hold the articles of
    the input, each as often as the input has it. *)
Theorem counts_add_up (articles : list Article) (w : World) :
  let sections := group_by_source articles in
  fst (generate_report articles w)
  = Ok ("# AI Competitive Intelligence Report" +:+ Str.nl
        +:+ "**Date**: " +:+ report_date w +:+ Str.nl
        +:+ "**Articles Found**: " +:+ Str.of_nat (length articles)
        +:+ Str.nl +:+ Str.nl
        +:+ "## Summary" +:+ Str.nl
        +:+ "This report contains the latest updates from key AI companies and competitors."
        +:+ Str.nl +:+ Str.nl
        +:+ Spec.concat_text
              (map (fun item =>
                      "## " +:+ fst item +:+ " ("
                        +:+ Str.of_nat (length (snd item))
                        +:+ " articles)" +:+ Str.nl +:+ Str.nl
                        +:+ Spec.concat_text
                              (map Spec.article_text (snd item)))
                   sections))
  /\ length articles
     = list_sum (map (fun item => length (snd item)) sections)
  /\ NoDup (map fst sections)
  /\ Forall (fun item => Forall (fun a => source a = fst item) (snd item))
            sections
  /\ Permutation (concat (map snd sections)) articles
  /\ (forall a, a ∈ articles ->
        exists item, item ∈ sections /\ a ∈ snd item).
Proof.
  cbn zeta. split; [| split; [| split; [| split; [| split]]]].
  - rewrite generate_report_render. cbn [fst]. f_equal.
    unfold render, report_header. rewrite group_by_source_groups.
    now rewrite !append_assoc.
  - change (length articles = Spec.total (group_by_source articles)).
    rewrite total_length. symmetry.
    apply Permutation_length, group_by_source_perm.
  - rewrite group_by_source_groups, groups_keys. apply first_seen_NoDup.
  - rewrite group_by_source_groups. apply Forall_forall.
    intros item [_ Hitem]%groups_elem. rewrite Hitem. apply Forall_forall.
    unfold Spec.articles_of. now intros a [Ha _]%list_elem_of_filter.
  - apply group_by_source_perm.
  - intros a Ha. rewrite group_by_source_groups.
    exists (source a, Spec.articles_of (source a) articles). split.
    + apply groups_elem. cbn [fst snd]. split; [| reflexivity].
      apply list_elem_of_In, in_map, list_elem_of_In, Ha.
    + cbn [snd]. unfold Spec.articles_of.
      now apply list_elem_of_filter.
Qed.

(** C6. Rendering is deterministic: in two worlds in which the report
    date is the same, whatever else differs (the time of day, the files,
    the output so far), [generate_report] returns the same text for the
    same articles, and this text depends on the date and the articles
    only. *)
Theorem render_deterministic (articles : list Article) (w1 w2 : World) :
  report_date w1 = report_date w2 ->
  fst (generate_report articles w1) = fst (generate_report articles w2)
  /\ fst (generate_report articles w1)
     = Ok (render (report_date w1) articles).
Proof.
  intros Hdate. rewrite !generate_report_render. cbn [fst].
  now rewrite Hdate.
Qed.

(** C10. On the empty sequence [generate_report] returns, and what it
    returns is the header with a count of 0 and no section: a text that
    is not empty. It has no guard of its own against the empty input. *)
Theorem empty_report (w : World) :
  generate_report [] w
  = (Ok ("# AI Competitive Intelligence Report" +:+ Str.nl
         +:+ "**Date**: " +:+ report_date w +:+ Str.nl
         +:+ "**Articles Found**: 0" +:+ Str.nl +:+ Str.nl
         +:+ "## Summary" +:+ Str.nl
         +:+ "This report contains the latest updates from key AI companies and competitors."
         +:+ Str.nl +:+ Str.nl),
     set_ticks (S (ticks w)) w)
  /\ group_by_source [] = []
  /\ fst (generate_report [] w) <> Ok "".
Proof.
  rewrite generate_report_render.
  split; [| split]; [| reflexivity | discriminate].
  f_equal. f_equal. unfold render, report_header.
  cbn [length Spec.groups map Spec.first_seen Spec.body_text Spec.concat_text
       fold_right].
  rewrite !append_assoc, !append_empty_r. reflexivity.
Qed.

End ReportClaims.

(** ** A run: main results *)

Section RunClaims.
Context `{Platform}.

Lemma reports_path_fresh (today : string) :
  "reports/ai_competitive_report_" +:+ today +:+ ".md" <> "reports".
Proof. discriminate. Qed.

Lemma files_set_stdout (o : list string) (w : World) :
  files (set_stdout o w) = files w.
Proof. reflexivity. Qed.

Lemma files_set_ticks (n : nat) (w : World) :
  files (set_ticks n w) = files w.
Proof. reflexivity. Qed.

Lemma files_set_dirs (d : gset string) (w : World) :
  files (set_dirs d w) = files w.
Proof. reflexivity. Qed.

Lemma files_set_files (f : gmap string string) (w : World) :
  files (set_files f w) = f.
Proof. reflexivity. Qed.

(** C5. When aggregation returns no article, the run returns without
    having written a file or made a directory, and the last thing it
    prints is that no articles were found; nothing is rendered or saved.
    When aggregation returns articles, the report of these articles is
    written to the dated path. *)
Theorem empty_run_writes_nothing (self_config : pyval) (w w1 : World) :
  scrape_all_competitors self_config (started w) = (Ok [], w1) ->
  run_daily_scrape self_config w
  = (Ok tt,
     set_stdout (stdout w1 ++ ["No articles found during scraping."]) w1)
  /\ files (snd (run_daily_scrape self_config w)) = files w
  /\ dirs (snd (run_daily_scrape self_config w)) = dirs w
  /\ (forall w2 a articles w3,
        scrape_all_competitors self_config (started w2)
        = (Ok (a :: articles), w3) ->
        files w2 !! "reports" = None ->
        saved_path w3 ∉ dirs w2 ->
        files (snd (run_daily_scrape self_config w2))
        = <[saved_path w3 := render (report_date w3) (a :: articles)]>
            (files w2)).
Proof.
  intros Hempty.
  assert (Hrun : run_daily_scrape self_config w
                 = (Ok tt,
                    set_stdout
                      (stdout w1 ++ ["No articles found during scraping."])
                      w1)).
  { unfold run_daily_scrape. unfold bind at 1. unfold print at 1.
    fold (started w). unfold bind at 1. now rewrite Hempty. }
  destruct (keeps_scrape_all_competitors self_config (started w))
    as [Hfiles Hdirs].
  rewrite Hempty in Hfiles, Hdirs. cbn [snd] in Hfiles, Hdirs.
  rewrite Hrun. split; [reflexivity |].
  split; [exact Hfiles |]. split; [exact Hdirs |].
  intros w2 a articles w3 Hsome Hreports Hpath.
  destruct (keeps_scrape_all_competitors self_config (started w2))
    as [Hfiles2 Hdirs2].
  rewrite Hsome in Hfiles2, Hdirs2. cbn [snd] in Hfiles2, Hdirs2.
  change (files (started w2)) with (files w2) in Hfiles2.
  change (dirs (started w2)) with (dirs w2) in Hdirs2.
  unfold run_daily_scrape. unfold bind at 1. unfold print at 1.
  fold (started w2). unfold bind at 1. rewrite Hsome. cbn [list_truthy].
  unfold bind at 1. rewrite generate_report_render.
  unfold bind at 1. unfold save_report.
  unfold bind at 1. unfold makedirs. cbn [files set_ticks].
  rewrite Hfiles2, Hreports.
  unfold bind at 1. unfold datetime_now. cbn [clock ticks set_dirs set_ticks].
  unfold bind at 1. unfold write_file. cbn [dirs files set_ticks].
  fold (saved_path w3). rewrite Hdirs2.
  rewrite decide_False.
  2:{ unfold set_dirs. cbn [dirs].
      rewrite elem_of_union, elem_of_singleton.
      intros [Heq | Hin]; [| tauto].
      now apply reports_path_fresh in Heq. }
  unfold bind, print, ret. cbn [snd].
  rewrite !files_set_stdout, files_set_files, files_set_dirs,
    files_set_ticks.
  now rewrite Hfiles2.
Qed.


End RunClaims.

(** ** The results on the concrete platform *)

Section Witnesses.

(** A text of white space only gives the empty title, and an element
    without [href] the empty URL. *)
Example blank_element :
  new_article (H := Demo.platform) "Acme" (mkTag "   " [])
              (Demo.mkStamp 1 2)
  = mkArticle "" "" "Acme" "2024-05-01T10:00:02".
Proof. reflexivity. Qed.

Example stripped_title :
  title (new_article (H := Demo.platform) "Acme"
                     (mkTag "  First post " [("href", "/posts/1")])
                     (Demo.mkStamp 1 0))
  = "First post".
Proof. reflexivity. Qed.

(** A relative link that does not begin with '/' is appended as it is. *)
Example link_without_slash :
  Spec.normalized_url "https://example.com/blog/index" "posts/1"
  = "https://example.composts/1".
Proof. reflexivity. Qed.

(** Sources X, Y, X: the sections are X then Y. *)
Example interleaved_sections :
  group_by_source Demo.interleaved
  = [("X", [Demo.article "a" "https://x.test/a" "X";
            Demo.article "c" "https://x.test/c" "X"]);
     ("Y", [Demo.article "b" "" "Y"])].
Proof. reflexivity. Qed.

(** No configuration file: the default configuration, and the run goes
    on with it. *)
Example missing_config :
  fst (load_config "config.json" Demo.world) = Ok get_default_config
  /\ fst (main Demo.world) = Ok tt.
Proof. split; vm_compute; reflexivity. Qed.

(** A configuration file that is not JSON: the run ends at once. *)
Example malformed_config :
  main (set_files {["config.json" := "{"]} Demo.world)
  = (Raise (mkExn JSONDecodeError "Expecting value"),
     set_files {["config.json" := "{"]} Demo.world).
Proof. vm_compute. reflexivity. Qed.

(** A run that finds articles writes the report of the day. *)
Example report_written :
  dom (files (snd (run_daily_scrape Demo.mixed Demo.world)))
  = {["reports/ai_competitive_report_2024-05-01.md"]}.
Proof. vm_compute. reflexivity. Qed.


Lemma aggregation_isolates_failures_witness :
  0 <= 2 <= 9223372036
  /\ (forall n, sleeps Demo.world n 2 = true)
  /\ (exists w',
        scrape_all_competitors Demo.mixed Demo.world
        = (Ok (concat (map Spec.contribution
                         (attempts Demo.mixed 2
                            [("Down", Demo.down); ("Acme", Demo.acme)]
                            Demo.world))),
           w'))
  /\ map Spec.contribution
       (attempts Demo.mixed 2 [("Down", Demo.down); ("Acme", Demo.acme)]
                 Demo.world)
     = [ [];
         [ mkArticle "First post" "https://acme.test/posts/1" "Acme"
                     "2024-05-01T10:00:00";
           mkArticle "Second" "https://acme.test/posts/2" "Acme"
                     "2024-05-01T10:00:01";
           mkArticle "" "" "Acme" "2024-05-01T10:00:02" ] ].
Proof.
  split; [lia |]. split; [reflexivity |].
  split; [| vm_compute; reflexivity].
  apply (aggregation_isolates_failures
           Demo.mixed [("Down", Demo.down); ("Acme", Demo.acme)] 2
           Demo.world);
    [reflexivity | reflexivity | lia | reflexivity].
Defined.

Lemma at_most_max_articles_witness :
  0 <= 2
  /\ exists articles w',
       scrape_competitor (Demo.config [] 2) "Acme" Demo.acme Demo.world
       = (Ok articles, w')
       /\ (length articles <= 2)%nat
       /\ articles
          = extracted "Acme" "https://acme.test/blog/index"
                      (clock Demo.world) 0 (take 2 Demo.acme_tags).
Proof.
  split; [lia |].
  destruct (at_most_max_articles (Demo.config [] 2) "Acme" Demo.acme
              Demo.world 2 eq_refl ltac:(lia))
    as (articles & w' & Hrun & Hlen & Hpage).
  exists articles, w'. split; [exact Hrun |]. split; [exact Hlen |].
  apply Hpage.
  exists (mkResponse 200 "OK" "https://acme.test/blog/index" Demo.acme_page),
    Demo.acme_page, (PyDict [("title", PyStr "h3 a")]), "h3 a".
  repeat split; try reflexivity. left. cbn. lia.
Defined.

Lemma url_normalized_witness :
  exists a w',
    scrape_element "Example" Demo.example_com Demo.relative_link []
                   Demo.world
    = (Ok [a], w')
    /\ url a = "https://example.com/posts/1".
Proof.
  destruct (url_normalized "Example" Demo.example_com
              "https://example.com/blog/index" Demo.relative_link []
              Demo.world eq_refl)
    as (a & w' & Hrun & Hurl & _).
  exists a, w'. split; [exact Hrun |]. rewrite Hurl. reflexivity.
Defined.

Lemma empty_run_writes_nothing_witness :
  run_daily_scrape Demo.quiet Demo.world
  = (Ok tt,
     set_stdout
       (stdout (snd (scrape_all_competitors Demo.quiet
                       (started Demo.world)))
          ++ ["No articles found during scraping."])
       (snd (scrape_all_competitors Demo.quiet (started Demo.world))))
  /\ files (snd (run_daily_scrape Demo.quiet Demo.world)) = ∅.
Proof.
  destruct (empty_run_writes_nothing Demo.quiet Demo.world
              (snd (scrape_all_competitors Demo.quiet (started Demo.world))))
    as (Hrun & Hfiles & _).
  - vm_compute. reflexivity.
  - split; [exact Hrun | exact Hfiles].
Defined.

Lemma render_deterministic_witness :
  fst (generate_report Demo.interleaved Demo.world)
  = fst (generate_report Demo.interleaved Demo.later).
Proof.
  apply (render_deterministic Demo.interleaved Demo.world Demo.later).
  reflexivity.
Defined.

End Witnesses.

(** * Further properties *)

(** ** The footprint of one competitor *)

Section CompetitorEffects.
Context `{Platform}.

(** X1. Whatever the site does, [scrape_competitor] returns the
    contribution of its attempt and prints exactly two lines: the
    announcement, then either the count of the articles it returns or a
    line that begins with the words `Error scraping`, the name and a
    colon. It calls [session.get] once when the [blog_url] of the
    competitor can be read and never otherwise, reads the clock once per
    article it returns, never pauses and leaves the files and
    directories alone. *)
Theorem scrape_competitor_footprint (self_config : pyval) (name : string)
    (config : pyval) (w : World) :
  let outcome := attempt self_config name config w in
  let r := scrape_competitor self_config name config w in
  fst r = Ok (Spec.contribution outcome)
  /\ (exists line,
        stdout (snd r) = stdout w ++ ["Scraping " +:+ name +:+ "..."; line]
        /\ match outcome with
           | Ok articles =>
               line = "Found " +:+ Str.of_nat (length articles)
                        +:+ " articles from " +:+ name
           | Raise _ =>
               exists message,
                 line = "Error scraping " +:+ name +:+ ": " +:+ message
           end)
  /\ requests (snd r)
     = (requests w + (if has_blog_url config then 1 else 0))%nat
  /\ ticks (snd r) = (ticks w + length (Spec.contribution outcome))%nat
  /\ slept (snd r) = slept w
  /\ clock (snd r) = clock w
  /\ network (snd r) = network w
  /\ files (snd r) = files w
  /\ dirs (snd r) = dirs w.
Proof.
  cbn zeta.
  destruct (scrape_competitor_world self_config name config w)
    as (Hrun & Hout & Hreq & Hticks & Hslept & Hclock & Hnet & _
        & Hfiles & Hdirs).
  cbn zeta in *. repeat split; auto.
  eexists. split; [exact Hout |].
  destruct (attempt self_config name config w); cbn [outcome_line]; eauto.
Qed.

End CompetitorEffects.

(** ** What a whole aggregation does to the world *)

Section AggregationEffects.
Context `{Platform}.

(** The world after the loop, field by field. *)
Lemma aggregated_world (self_config : pyval) (delay : Z)
    (items : list (string * pyval)) (w : World) :
  let w' := aggregated self_config delay items w in
  slept w' = slept w ++ replicate (length items) delay
  /\ requests w'
     = (requests w
        + length (List.filter has_blog_url (map snd items)))%nat
  /\ ticks w'
     = (ticks w
        + length (concat (map Spec.contribution
                            (attempts self_config delay items w))))%nat
  /\ length (stdout w') = (length (stdout w) + 2 * length items)%nat
  /\ clock w' = clock w
  /\ network w' = network w.
Proof.
  revert w. induction items as [| [name config] items IH]; intros w.
  - cbn. rewrite app_nil_r. repeat split; lia.
  - cbn [aggregated attempts map concat length List.filter snd replicate].
    destruct (scrape_competitor_world self_config name config w)
      as (_ & Hout & Hreq & Hticks & Hslept & Hclock & Hnet & _).
    cbn zeta in *.
    set (w1 := snd (scrape_competitor self_config name config w)) in *.
    destruct (IH (paused delay w1))
      as (IHslept & IHreq & IHticks & IHout & IHclock & IHnet).
    cbn zeta in *.
    change (slept (paused delay w1)) with (slept w1 ++ [delay]) in IHslept.
    change (requests (paused delay w1)) with (requests w1) in IHreq.
    change (ticks (paused delay w1)) with (ticks w1) in IHticks.
    change (stdout (paused delay w1)) with (stdout w1) in IHout.
    change (clock (paused delay w1)) with (clock w1) in IHclock.
    change (network (paused delay w1)) with (network w1) in IHnet.
    rewrite IHslept, IHreq, IHticks, IHout, IHclock, IHnet.
    rewrite Hslept, Hreq, Hticks, Hout, Hclock, Hnet.
    rewrite length_app, <- app_assoc. cbn [app length].
    destruct (has_blog_url config); cbn [length];
      rewrite ?length_app; cbn [length]; repeat split; lia.
Qed.

(** X2. Pacing: with a configuration whose competitors are a mapping
    and whose delay is an integer or a boolean that [time.sleep] takes
    whenever it is asked to, [scrape_all_competitors] pauses exactly
    once per competitor, each time for the configured seconds, also
    after the last competitor and after those that failed. *)
Theorem one_pause_per_competitor (self_config : pyval)
    (items : list (string * pyval)) (delay : pyval) (seconds : Z)
    (w : World) :
  Py.getitem self_config "competitors" = Ok (PyDict items) ->
  Py.getitem self_config "delay_between_requests" = Ok delay ->
  pause_seconds delay = Some seconds ->
  pause_accepted w seconds ->
  slept (snd (scrape_all_competitors self_config w))
  = slept w ++ replicate (length items) seconds.
Proof.
  intros Hc Hd Hs Ha.
  rewrite (scrape_all_competitors_exact _ _ _ _ _ Hc Hd Hs Ha).
  apply aggregated_world.
Qed.

(** X3. Over a whole aggregation [session.get] is called once for every
    competitor whose [blog_url] can be read, so never more than once per
    competitor; the clock is read once per article returned; and two
    lines are printed per competitor. *)
Theorem aggregation_footprint (self_config : pyval)
    (items : list (string * pyval)) (delay : pyval) (seconds : Z)
    (w : World) :
  Py.getitem self_config "competitors" = Ok (PyDict items) ->
  Py.getitem self_config "delay_between_requests" = Ok delay ->
  pause_seconds delay = Some seconds ->
  pause_accepted w seconds ->
  exists articles w',
    scrape_all_competitors self_config w = (Ok articles, w')
    /\ requests w'
       = (requests w
          + length (List.filter has_blog_url (map snd items)))%nat
    /\ (requests w' <= requests w + length items)%nat
    /\ ticks w' = (ticks w + length articles)%nat
    /\ length (stdout w') = (length (stdout w) + 2 * length items)%nat.
Proof.
  intros Hc Hd Hs Ha.
  rewrite (scrape_all_competitors_exact _ _ _ _ _ Hc Hd Hs Ha).
  eexists _, _. split; [reflexivity |].
  destruct (aggregated_world self_config seconds items w)
    as (_ & Hreq & Hticks & Hout & _).
  cbn zeta in *. repeat split; auto.
  rewrite Hreq. apply Nat.add_le_mono_l.
  etransitivity; [apply List.filter_length_le |]. now rewrite length_map.
Qed.

Lemma extracted_sources (name listing : string) (clk : nat -> datetime)
    (t : nat) (els : list Tag) :
  Forall (fun a => source a = name) (extracted name listing clk t els).
Proof.
  revert t. induction els as [|el els IH]; intros t; cbn [extracted];
    constructor; auto.
Qed.

Lemma attempt_sources (self_config : pyval) (name : string) (config : pyval)
    (w : World) :
  Forall (fun a => source a = name)
         (Spec.contribution (attempt self_config name config w)).
Proof.
  unfold attempt.
  destruct (scrape_competitor_try self_config name config (announced name w))
    as [[articles | e] w1] eqn:Htry; cbn [fst Spec.contribution];
    [| constructor].
  apply scrape_competitor_try_inv in Htry
    as (listing & found & stop & els & _ & _ & _ & ->).
  apply extracted_sources.
Qed.

Lemma attempt_length (self_config : pyval) (name : string) (config : pyval)
    (w : World) (n : Z) :
  Py.getitem self_config "max_articles" = Ok (PyInt n) -> 0 <= n ->
  (length (Spec.contribution (attempt self_config name config w))
   <= Z.to_nat n)%nat.
Proof.
  intros Hmax Hn. unfold attempt.
  destruct (scrape_competitor_try self_config name config (announced name w))
    as [[articles | e] w1] eqn:Htry; cbn [fst Spec.contribution length];
    [| lia].
  apply scrape_competitor_try_inv in Htry
    as (listing & found & stop & els & _ & Hstop & Hslice & ->).
  rewrite Hmax in Hstop. injection Hstop as <-.
  cbn [Py.slice_to] in Hslice. injection Hslice as <-.
  rewrite length_extracted. now apply length_take_to.
Qed.

Lemma length_attempts (self_config : pyval) (delay : Z)
    (items : list (string * pyval)) (w : World) :
  length (attempts self_config delay items w) = length items.
Proof.
  revert w. induction items as [| [name config] items IH]; intros w;
    cbn [attempts length]; auto.
Qed.

(** The articles of a run come in blocks, one per competitor in the
    order of the mapping, and every article of a block carries the name
    of its competitor. *)
Lemma blocks_spec (self_config : pyval) (delay : Z)
    (items : list (string * pyval)) (w : World) :
  map fst (blocks self_config delay items w) = map fst items
  /\ concat (map snd (blocks self_config delay items w))
     = concat (map Spec.contribution (attempts self_config delay items w))
  /\ Forall (fun b => Forall (fun a => source a = fst b) (snd b))
            (blocks self_config delay items w).
Proof.
  unfold blocks. revert w.
  induction items as [| [name config] items IH]; intros w.
  - cbn. repeat split; constructor.
  - cbn [attempts map combine fst snd concat].
    destruct (IH (paused delay
                    (snd (scrape_competitor self_config name config w))))
      as (IHnames & IHconcat & IHsources).
    rewrite IHnames, IHconcat. repeat split.
    constructor; [apply attempt_sources | exact IHsources].
Qed.

(** X4. With a delay that [time.sleep] takes whenever it is asked to,
    every article [scrape_all_competitors] returns carries as its source
    the name of a configured competitor. *)
Theorem sources_are_competitors (self_config : pyval)
    (items : list (string * pyval)) (delay : pyval) (seconds : Z)
    (w : World) :
  Py.getitem self_config "competitors" = Ok (PyDict items) ->
  Py.getitem self_config "delay_between_requests" = Ok delay ->
  pause_seconds delay = Some seconds ->
  pause_accepted w seconds ->
  exists articles w',
    scrape_all_competitors self_config w = (Ok articles, w')
    /\ Forall (fun a => source a ∈ map fst items) articles.
Proof.
  intros Hc Hd Hs Ha.
  rewrite (scrape_all_competitors_exact _ _ _ _ _ Hc Hd Hs Ha).
  eexists _, _. split; [reflexivity |].
  destruct (blocks_spec self_config seconds items w)
    as (Hnames & <- & Hsources).
  rewrite <- Hnames. clear Hnames.
  induction Hsources as [| [name articles] bs Hb Hbs IH];
    cbn [map concat fst snd]; [constructor |].
  apply Forall_app. split.
  - eapply Forall_impl; [exact Hb |]. cbn. intros a ->. apply elem_of_cons.
    now left.
  - eapply Forall_impl; [exact IH |]. cbn. intros a Ha'. apply elem_of_cons.
    now right.
Qed.

(** X5. With a [max_articles] of [n >= 0] and a delay that [time.sleep]
    takes whenever it is asked to, a whole aggregation returns at most
    [n] articles per configured competitor. *)
Theorem aggregation_bounded (self_config : pyval)
    (items : list (string * pyval)) (delay : pyval) (seconds n : Z)
    (w : World) :
  Py.getitem self_config "competitors" = Ok (PyDict items) ->
  Py.getitem self_config "delay_between_requests" = Ok delay ->
  pause_seconds delay = Some seconds ->
  pause_accepted w seconds ->
  Py.getitem self_config "max_articles" = Ok (PyInt n) ->
  0 <= n ->
  exists articles w',
    scrape_all_competitors self_config w = (Ok articles, w')
    /\ (length articles <= Z.to_nat n * length items)%nat.
Proof.
  intros Hc Hd Hs Ha Hmax Hn.
  rewrite (scrape_all_competitors_exact _ _ _ _ _ Hc Hd Hs Ha).
  eexists _, _. split; [reflexivity |]. clear Hc Ha. revert w.
  induction items as [| [name config] items IH]; intros w.
  - cbn. lia.
  - cbn [attempts map concat length]. rewrite length_app.
    pose proof (attempt_length self_config name config w n Hmax Hn).
    specialize (IH (paused seconds
                      (snd (scrape_competitor self_config name config w)))).
    lia.
Qed.

(** X6. With an empty competitor mapping [scrape_all_competitors]
    returns no article and does nothing at all: it sends no request,
    takes no pause and prints nothing, and it does not even read the
    delay or [max_articles], which may be missing. *)
Theorem no_competitors_no_effects (self_config : pyval) (w : World) :
  Py.getitem self_config "competitors" = Ok (PyDict []) ->
  scrape_all_competitors self_config w = (Ok [], w).
Proof.
  intros Hc. unfold scrape_all_competitors, bind, lift.
  now rewrite Hc.
Qed.


End AggregationEffects.

(** ** Edge cases of one competitor *)

Section CompetitorEdges.
Context `{Platform}.

(** X8. A [max_articles] that cannot bound a slice (a missing key, a
    string, a list or a mapping) makes every competitor yield no
    article: the error is raised inside the [try], after the page was
    fetched, and is swallowed there. *)
Theorem unusable_max_articles_yields_nothing (self_config : pyval)
    (name : string) (config : pyval) (w : World) :
  match Py.getitem self_config "max_articles" with
  | Ok PyNone | Ok (PyInt _) | Ok (PyBool _) => False
  | _ => True
  end ->
  fst (scrape_competitor self_config name config w) = Ok [].
Proof.
  intros Hmax.
  destruct (scrape_competitor_world self_config name config w) as [-> _].
  f_equal. unfold attempt.
  destruct (scrape_competitor_try self_config name config (announced name w))
    as [[articles | e] w1] eqn:Htry; cbn [fst Spec.contribution];
    [| reflexivity].
  apply scrape_competitor_try_inv in Htry
    as (listing & found & stop & els & _ & Hstop & Hslice & _).
  rewrite Hstop in Hmax.
  destruct stop; try contradiction; discriminate.
Qed.

Lemma take_to_negative {A : Type} (n : Z) (l : list A) :
  n < 0 -> Py.take_to n l = take (length l - Z.to_nat (- n)) l.
Proof.
  intros Hn. unfold Py.take_to.
  destruct (Z.ltb_spec n 0) as [_ | Hge]; [| lia].
  f_equal. lia.
Qed.

(** X9. [max_articles] is used as the end of a slice, so it bounds the
    articles only when it is not negative. When it is [None] (a JSON
    null) every element found becomes an article, and when it is a
    negative integer [n] all elements but the last [-n] do. *)
Theorem max_articles_none_or_negative (self_config : pyval) (name : string)
    (config : pyval) (w : World) (listing : string) (found : list Tag) :
  page_yields config w listing found ->
  (Py.getitem self_config "max_articles" = Ok PyNone ->
   fst (scrape_competitor self_config name config w)
   = Ok (extracted name listing (clock w) (ticks w) found))
  /\ (forall n,
        Py.getitem self_config "max_articles" = Ok (PyInt n) -> n < 0 ->
        fst (scrape_competitor self_config name config w)
        = Ok (extracted name listing (clock w) (ticks w)
                (take (length found - Z.to_nat (- n)) found))).
Proof.
  intros Hpage.
  destruct (scrape_competitor_world self_config name config w) as [-> _].
  unfold attempt. split.
  - intros Hmax.
    now rewrite (scrape_competitor_try_ok _ _ _ _ _ _ _ _ Hpage Hmax eq_refl).
  - intros n Hmax Hn.
    rewrite (scrape_competitor_try_ok _ _ _ _ _ _ _ _ Hpage Hmax eq_refl).
    cbn [fst Spec.contribution]. now rewrite take_to_negative.
Qed.

(** X10. A response whose status is from 400 to 599 makes the competitor
    yield no article, and the error line printed for it carries the
    status, `Client Error` below 500 and `Server Error` from 500 on, the
    reason and the URL of the response. *)
Theorem http_error_yields_nothing (self_config : pyval) (name : string)
    (config : pyval) (w : World) (listing : string) (response : Response) :
  Py.getitem config "blog_url" = Ok (PyStr listing) ->
  network w (requests w) listing = Ok response ->
  400 <= status_code response < 600 ->
  let message :=
    Str.of_nat (Z.to_nat (status_code response))
      +:+ (if status_code response <? 500 then " Client Error: "
           else " Server Error: ")
      +:+ reason response +:+ " for url: " +:+ response_url response in
  fst (scrape_competitor self_config name config w) = Ok []
  /\ stdout (snd (scrape_competitor self_config name config w))
     = stdout w ++ ["Scraping " +:+ name +:+ "...";
                    "Error scraping " +:+ name +:+ ": " +:+ message].
Proof.
  intros Hurl Hnet [Hlo Hhi] message.
  assert (Htry : attempt self_config name config w
                 = Raise (mkExn HTTPError message)).
  { unfold attempt, scrape_competitor_try.
    unfold bind at 1. unfold lift at 1. rewrite Hurl.
    unfold bind at 1. unfold session_get.
    cbn [network requests announced set_stdout]. rewrite Hnet.
    unfold bind at 1. unfold raise_for_status, message.
    destruct (Z.leb_spec 400 (status_code response)); [| lia].
    destruct (Z.ltb_spec (status_code response) 500); cbn [andb].
    - reflexivity.
    - destruct (Z.leb_spec 500 (status_code response)); [| lia].
      destruct (Z.ltb_spec (status_code response) 600); [| lia].
      reflexivity. }
  destruct (scrape_competitor_world self_config name config w)
    as (-> & -> & _).
  now rewrite Htry.
Qed.

Lemma prefix_http (s : string) :
  String.prefix "http" (String "h" (String "t" (String "t" (String "p" s))))
  = true.
Proof. destruct s; reflexivity. Qed.

Lemma origin_http (listing raw : string) :
  String.prefix "http" listing = true ->
  String.prefix "http" (Spec.origin listing +:+ raw) = true.
Proof.
  intros Hp.
  destruct listing as [|a [|b [|c [|d rest]]]]; cbn [String.prefix] in Hp;
    repeat match type of Hp with
      | context [ascii_dec ?x ?y] =>
          destruct (ascii_dec x y) as [<- |]; [| discriminate Hp];
          cbn [String.prefix] in Hp
      end;
    try discriminate Hp.
  unfold Spec.origin. cbn [Str.split].
  change (Ascii.eqb "h" "/") with false.
  change (Ascii.eqb "t" "/") with false.
  change (Ascii.eqb "p" "/") with false. cbv iota.
  pose proof (split_not_nil "/" rest) as Hne.
  destruct (Str.split "/" rest) as [|f fs]; [congruence |].
  destruct fs as [|g [|h0 hs]]; apply prefix_http.
Qed.

Lemma normalized_url_absolute (listing raw : string) :
  String.prefix "http" listing = true ->
  Spec.normalized_url listing raw = ""
  \/ String.prefix "http" (Spec.normalized_url listing raw) = true.
Proof.
  intros Hlisting. unfold Spec.normalized_url.
  destruct (String.eqb raw ""); [now left |].
  destruct (String.prefix "http" raw) eqn:Hraw; [now right |].
  right. now apply origin_http.
Qed.

(** X11. For a competitor whose listing URL begins with [http], the URL
    of every article [scrape_competitor] returns is empty or begins with
    [http]. *)
Theorem urls_empty_or_absolute (self_config : pyval) (name : string)
    (config : pyval) (w : World) (listing : string) :
  Py.getitem config "blog_url" = Ok (PyStr listing) ->
  String.prefix "http" listing = true ->
  exists articles w',
    scrape_competitor self_config name config w = (Ok articles, w')
    /\ Forall (fun a => url a = "" \/ String.prefix "http" (url a) = true)
              articles.
Proof.
  intros Hurl Hlisting.
  destruct (scrape_competitor_world self_config name config w) as [Hrun _].
  cbn zeta in Hrun.
  destruct (scrape_competitor self_config name config w) as [res w'].
  cbn [fst] in Hrun. subst res. eexists _, w'. split; [reflexivity |].
  unfold attempt.
  destruct (scrape_competitor_try self_config name config (announced name w))
    as [[articles | e] w1] eqn:Htry; cbn [fst Spec.contribution];
    [| constructor].
  apply scrape_competitor_try_inv in Htry
    as (listing' & found & stop & els & Hpage & _ & _ & ->).
  destruct Hpage as (_ & _ & _ & _ & Hurl' & _).
  rewrite Hurl in Hurl'. injection Hurl' as <-.
  generalize (ticks (announced name w)). induction els as [|el els IH];
    intros t; cbn [extracted]; constructor; auto.
  cbn [extracted_article url]. now apply normalized_url_absolute.
Qed.

End CompetitorEdges.

(** ** Sections of an aggregated run *)

Section SectionsOfRun.
Context `{Platform}.

Lemma lookup_app_none {V : Type} (k : string) (d e : list (string * V)) :
  Py.lookup k d = None -> Py.lookup k (d ++ e) = Py.lookup k e.
Proof.
  induction d as [| [k' v] d IH]; [reflexivity |]. cbn [Py.lookup app].
  destruct (String.eqb k' k); [discriminate | exact IH].
Qed.

Lemma setitem_app_none {V : Type} (k : string) (v : V)
    (d e : list (string * V)) :
  Py.lookup k d = None -> Py.setitem k v (d ++ e) = d ++ Py.setitem k v e.
Proof.
  induction d as [| [k' v'] d IH]; [reflexivity |].
  cbn [Py.lookup Py.setitem app].
  destruct (String.eqb k' k); [discriminate |].
  intros Hnone. now rewrite IH.
Qed.

Lemma append_at_app_none {A : Type} (k : string) (x : A)
    (d e : list (string * list A)) :
  Py.lookup k d = None ->
  Py.append_at k x (d ++ e) = d ++ Py.append_at k x e.
Proof.
  induction d as [| [k' v'] d IH]; [reflexivity |].
  cbn [Py.lookup Py.append_at app].
  destruct (String.eqb k' k); [discriminate |].
  intros Hnone. now rewrite IH.
Qed.

(** A step of the grouping loop does not look at the sections of other
    sources that come first. *)
Lemma group_step_app (d e : list (string * list Article)) (a : Article) :
  Py.lookup (source a) d = None ->
  group_step (d ++ e) a = d ++ group_step e a.
Proof.
  intros Hnone. unfold group_step, Py.contains.
  rewrite (lookup_app_none _ _ _ Hnone).
  destruct (Py.lookup (source a) e) as [l |] eqn:He; cbn [negb].
  - now apply append_at_app_none.
  - rewrite (setitem_app_none _ _ _ _ Hnone).
    now apply append_at_app_none.
Qed.

Lemma fold_group_step_app (y : list Article)
    (d e : list (string * list Article)) :
  Forall (fun a => Py.lookup (source a) d = None) y ->
  fold_left group_step y (d ++ e) = d ++ fold_left group_step y e.
Proof.
  intros Hy. revert e. induction Hy as [| a y Ha Hy IH]; intros e;
    [reflexivity |].
  cbn [fold_left]. now rewrite (group_step_app _ _ _ Ha), IH.
Qed.

Lemma group_by_source_app (x y : list Article) :
  Forall (fun a => Py.lookup (source a) (group_by_source x) = None) y ->
  group_by_source (x ++ y) = group_by_source x ++ group_by_source y.
Proof.
  intros Hy. unfold group_by_source at 1. rewrite fold_left_app.
  fold (group_by_source x).
  rewrite <- (app_nil_r (group_by_source x)) at 1.
  now rewrite fold_group_step_app.
Qed.

Lemma group_by_source_uniform (k : string) (l : list Article) :
  Forall (fun a => source a = k) l -> l <> [] ->
  group_by_source l = [(k, l)].
Proof.
  induction l as [|a l IH] using rev_ind; [congruence |].
  intros [Hl Ha]%Forall_app _. inversion Ha as [| ? ? Hk _]; subst.
  unfold group_by_source. rewrite fold_left_app. cbn [fold_left].
  fold (group_by_source l). destruct l as [|b l].
  - unfold group_step, Py.contains. cbn. rewrite String.eqb_refl.
    reflexivity.
  - rewrite (IH Hl) by discriminate.
    unfold group_step, Py.contains. cbn. rewrite !String.eqb_refl.
    cbn. rewrite String.eqb_refl. reflexivity.
Qed.

(** Articles that come competitor by competitor, under distinct names,
    are grouped into one section per competitor that has articles, in
    the order of the competitors. *)
Lemma group_by_source_blocks (bs : list (string * list Article)) :
  NoDup (map fst bs) ->
  Forall (fun b => Forall (fun a => source a = fst b) (snd b)) bs ->
  group_by_source (concat (map snd bs))
  = List.filter (fun b => list_truthy (snd b)) bs.
Proof.
  induction bs as [| [k l] bs IH]; [reflexivity |].
  cbn [map fst snd concat List.filter].
  intros [Hk Hnd]%NoDup_cons Hall.
  inversion Hall as [| ? ? Hl Hbs]; subst. cbn [fst snd] in Hl.
  rewrite group_by_source_app.
  - rewrite (IH Hnd Hbs). destruct l as [|a l]; [reflexivity |].
    cbn [list_truthy]. now rewrite (group_by_source_uniform k) by easy.
  - apply Forall_forall. intros a Ha.
    assert (Hne : source a <> k).
    { intros <-. apply Hk. clear -Ha Hbs.
      induction Hbs as [| [k' l'] bs Hb Hbs IH]; cbn [map concat snd fst] in *.
      - now apply elem_of_nil in Ha.
      - apply elem_of_app in Ha as [Ha | Ha].
        + apply elem_of_cons. left. cbn [fst snd] in Hb.
          rewrite Forall_forall in Hb. now apply Hb.
        + apply elem_of_cons. right. now apply IH. }
    destruct l as [|b l]; [reflexivity |].
    rewrite (group_by_source_uniform k) by easy.
    cbn [Py.lookup]. destruct (String.eqb_spec k (source a)); congruence.
Qed.

(** X12. When the competitors of the mapping have distinct names and
    the delay is one [time.sleep] takes whenever it is asked to, the
    sections of the report of a whole aggregation follow the order of
    the mapping: one section per competitor that yielded at least one
    article, holding the articles of that competitor in the order of
    extraction; a competitor that failed or found nothing has no
    section. *)
Theorem sections_follow_mapping (self_config : pyval)
    (items : list (string * pyval)) (delay : pyval) (seconds : Z)
    (w : World) :
  Py.getitem self_config "competitors" = Ok (PyDict items) ->
  Py.getitem self_config "delay_between_requests" = Ok delay ->
  pause_seconds delay = Some seconds ->
  pause_accepted w seconds ->
  NoDup (map fst items) ->
  exists articles w',
    scrape_all_competitors self_config w = (Ok articles, w')
    /\ group_by_source articles
       = List.filter (fun b => list_truthy (snd b))
                     (combine (map fst items)
                        (map Spec.contribution
                           (attempts self_config seconds items w))).
Proof.
  intros Hc Hd Hs Ha Hnd.
  rewrite (scrape_all_competitors_exact _ _ _ _ _ Hc Hd Hs Ha).
  eexists _, _. split; [reflexivity |].
  destruct (blocks_spec self_config seconds items w)
    as (Hnames & Hconcat & Hsources).
  fold (blocks self_config seconds items w).
  rewrite <- Hconcat. apply group_by_source_blocks; [| exact Hsources].
  now rewrite Hnames.
Qed.

Lemma length_first_seen (l : list string) :
  (length (Spec.first_seen l) <= length l)%nat.
Proof.
  induction l as [|s l IH]; cbn [Spec.first_seen length]; [lia |].
  pose proof (length_filter (fun s' => s' <> s) (Spec.first_seen l)). lia.
Qed.

(** X13. No section of a report is empty, so no heading shows a count of
    0, and there are never more sections than articles. *)
Theorem sections_not_empty (articles : list Article) :
  Forall (fun item => snd item <> []) (group_by_source articles)
  /\ (length (group_by_source articles) <= length articles)%nat.
Proof.
  rewrite group_by_source_groups. split.
  - apply Forall_forall. intros item [Hkey Hitem]%groups_elem. rewrite Hitem.
    apply list_elem_of_In, in_map_iff in Hkey as (a & Hsrc & Ha).
    intros Hnil. apply list_elem_of_In in Ha.
    assert (Hin : a ∈ Spec.articles_of (fst item) articles)
      by now apply list_elem_of_filter.
    rewrite Hnil in Hin. now apply elem_of_nil in Hin.
  - unfold Spec.groups. rewrite length_map.
    etransitivity; [apply length_first_seen |]. now rewrite length_map.
Qed.

End SectionsOfRun.

(** ** Saving the report and the whole run *)

Section PersistAndRun.
Context `{Platform}.

(** [save_report] when [reports] is not a regular file and the dated
    path is not a directory. *)
Lemma save_report_ok (text : string) (w : World) :
  files w !! "reports" = None ->
  report_path (report_date w) ∉ dirs w ->
  save_report text w
  = (Ok (report_path (report_date w)),
     set_stdout
       (stdout w ++ ["Report saved to " +:+ report_path (report_date w)])
       (set_files (<[report_path (report_date w) := text]> (files w))
          (set_ticks (S (ticks w))
             (set_dirs ({["reports"]} ∪ dirs w) w)))).
Proof.
  intros Hreports Hpath. unfold save_report.
  unfold bind at 1. unfold makedirs. rewrite Hreports.
  unfold bind at 1. unfold datetime_now.
  cbn [clock ticks set_dirs]. fold (report_date w).
  fold (report_path (report_date w)).
  unfold bind at 1. unfold write_file. cbn [dirs files set_ticks].
  rewrite decide_False.
  2:{ unfold set_dirs. cbn [dirs].
      rewrite elem_of_union, elem_of_singleton.
      intros [Heq | Hin]; [| tauto].
      now apply reports_path_fresh in Heq. }
  unfold bind, print, ret. reflexivity.
Qed.

(** X14. When [reports] is not a regular file and the dated path is not
    a directory, [save_report] returns the dated path, makes the
    directory [reports], prints one line, and writes the text under the
    path: reading the path gives the text back and every other file is
    as before. A second report saved on the same date replaces the
    first; nothing is appended or kept. *)
Theorem save_report_writes (text : string) (w : World) :
  files w !! "reports" = None ->
  report_path (report_date w) ∉ dirs w ->
  let path := report_path (report_date w) in
  exists w',
    save_report text w = (Ok path, w')
    /\ files w' !! path = Some text
    /\ (forall other, other <> path -> files w' !! other = files w !! other)
    /\ "reports" ∈ dirs w'
    /\ stdout w' = stdout w ++ ["Report saved to " +:+ path]
    /\ (forall text2,
          report_date w' = report_date w ->
          files (snd (save_report text2 w')) = <[path := text2]> (files w)).
Proof.
  intros Hreports Hpath path.
  rewrite (save_report_ok text w Hreports Hpath). fold path.
  eexists. split; [reflexivity |].
  unfold set_stdout, set_files, set_ticks, set_dirs.
  cbn [files dirs stdout clock ticks].
  split; [apply lookup_insert_eq |].
  split; [intros other Hne; now apply lookup_insert_ne |].
  split; [apply elem_of_union; left; now apply elem_of_singleton |].
  split; [reflexivity |].
  intros text2 Hdate. rewrite save_report_ok.
  - cbn [snd]. unfold set_stdout, set_files, set_ticks, set_dirs.
    cbn [files]. rewrite Hdate. fold path. apply insert_insert_eq.
  - cbn [files]. rewrite lookup_insert_ne; [exact Hreports |].
    apply reports_path_fresh.
  - rewrite Hdate. fold path. cbn [dirs].
    rewrite elem_of_union, elem_of_singleton.
    intros [Heq | Hin]; [| tauto].
    now apply reports_path_fresh in Heq.
Qed.

(** X15. When [reports] exists as a regular file, a run that found
    articles ends with [FileExistsError]: the error of [os.makedirs] is
    not caught anywhere, no file is written, and none of the lines that
    follow a saved report is printed. *)
Theorem blocked_reports_directory_is_fatal (self_config : pyval)
    (w w1 : World) (a : Article) (articles : list Article) (other : string) :
  scrape_all_competitors self_config (started w) = (Ok (a :: articles), w1) ->
  files w !! "reports" = Some other ->
  exists e,
    exn_cls e = FileExistsError
    /\ run_daily_scrape self_config w = (Raise e, set_ticks (S (ticks w1)) w1)
    /\ files (snd (run_daily_scrape self_config w)) = files w
    /\ stdout (snd (run_daily_scrape self_config w)) = stdout w1.
Proof.
  intros Hsome Hreports.
  destruct (keeps_scrape_all_competitors self_config (started w))
    as [Hfiles _].
  rewrite Hsome in Hfiles. cbn [snd] in Hfiles.
  change (files (started w)) with (files w) in Hfiles.
  exists (mkExn FileExistsError "[Errno 17] File exists: 'reports'").
  split; [reflexivity |].
  assert (Hrun : run_daily_scrape self_config w
                 = (Raise (mkExn FileExistsError
                             "[Errno 17] File exists: 'reports'"),
                    set_ticks (S (ticks w1)) w1)).
  { unfold run_daily_scrape. unfold bind at 1. unfold print at 1.
    fold (started w). unfold bind at 1. rewrite Hsome. cbn [list_truthy].
    unfold bind at 1. rewrite generate_report_render.
    unfold bind at 1. unfold save_report.
    unfold bind at 1. unfold makedirs. cbn [files set_ticks].
    now rewrite Hfiles, Hreports. }
  rewrite Hrun. repeat split. exact Hfiles.
Qed.

(** X16. The run returns whenever the configuration has a competitor
    mapping and a delay, an integer or a boolean, that [time.sleep]
    takes whenever it is asked to, [reports] is not a regular file and
    no dated path is a directory, whatever the sites answer. Its last
    line is the total of the articles found, or that none was found. *)
Theorem run_completes (self_config : pyval) (items : list (string * pyval))
    (delay : pyval) (seconds : Z) (w : World) :
  Py.getitem self_config "competitors" = Ok (PyDict items) ->
  Py.getitem self_config "delay_between_requests" = Ok delay ->
  pause_seconds delay = Some seconds ->
  pause_accepted w seconds ->
  files w !! "reports" = None ->
  (forall today, report_path today ∉ dirs w) ->
  exists articles w1 w',
    scrape_all_competitors self_config (started w) = (Ok articles, w1)
    /\ run_daily_scrape self_config w = (Ok tt, w')
    /\ last (stdout w')
       = Some (if list_truthy articles
               then "Total articles found: " +:+ Str.of_nat (length articles)
               else "No articles found during scraping.").
Proof.
  intros Hc Hd Hs Ha Hreports Hdirs.
  assert (Ha' : pause_accepted (started w) seconds)
    by (apply (pause_accepted_after w); [reflexivity | exact Ha]).
  pose proof (scrape_all_competitors_exact _ _ _ _ (started w) Hc Hd Hs Ha')
    as Hall.
  destruct (keeps_scrape_all_competitors self_config (started w))
    as [Hfiles Hdirs1].
  rewrite Hall in Hfiles, Hdirs1. cbn [snd] in Hfiles, Hdirs1.
  change (files (started w)) with (files w) in Hfiles.
  change (dirs (started w)) with (dirs w) in Hdirs1.
  set (w1 := aggregated self_config seconds items (started w)) in *.
  set (articles := concat _) in *.
  exists articles, w1.
  unfold run_daily_scrape. unfold bind at 1. unfold print at 1.
  fold (started w). unfold bind at 1. rewrite Hall.
  destruct articles as [| a articles]; cbn [list_truthy].
  - eexists. split; [reflexivity |]. split; [reflexivity |].
    unfold print. cbn [snd stdout set_stdout]. apply last_snoc.
  - unfold bind at 1. rewrite generate_report_render.
    unfold bind at 1. rewrite save_report_ok.
    + unfold bind, print. eexists. split; [reflexivity |].
      split; [reflexivity |].
      unfold set_stdout. cbn [stdout]. apply last_snoc.
    + cbn [files set_ticks]. now rewrite Hfiles.
    + cbn [dirs set_ticks]. rewrite Hdirs1. apply Hdirs.
Qed.

(** X17. [load_config] takes any JSON document as the configuration
    without looking into it. A document without a competitor mapping is
    found out only when the run starts: [main] prints the first line and
    raises the error of the lookup before any request is sent. *)
Theorem unvalidated_config_fails_at_run (text : string) (cfg : pyval)
    (e : exn) (w : World) :
  files w !! "config.json" = Some text ->
  json_loads text = Some cfg ->
  Py.getitem cfg "competitors" = Raise e ->
  load_config "config.json" w = (Ok cfg, w)
  /\ main w = (Raise e, started w).
Proof.
  intros Hfile Hjson Hmissing.
  assert (Hload : load_config "config.json" w = (Ok cfg, w)).
  { unfold load_config, try_except, bind, read_file, lift, json_load.
    now rewrite Hfile, Hjson. }
  split; [exact Hload |].
  unfold main, init. unfold bind at 1. rewrite Hload.
  unfold run_daily_scrape. unfold bind at 1. unfold print at 1.
  fold (started w). unfold bind at 1.
  unfold scrape_all_competitors, bind, lift. now rewrite Hmissing.
Qed.

End PersistAndRun.

(** ** The further properties on the concrete platform *)

Section FurtherWitnesses.

(** A pause the system refuses ends the aggregation after the first
    competitor, with the error of the system. *)
Example refused_pause :
  scrape_all_competitors Cases.long_delay Demo.world
  = (Raise (mkExn OSError "[Errno 22] Invalid argument"),
     snd (scrape_competitor Cases.long_delay "Acme" Demo.acme Demo.world)).
Proof. vm_compute. reflexivity. Qed.

(** A boolean delay counts as one second or none. *)
Example boolean_delay :
  slept (snd (time_sleep (PyBool true) Demo.world)) = [1].
Proof. reflexivity. Qed.

Lemma two_seconds_accepted : pause_accepted Demo.world 2.
Proof. split; [lia | reflexivity]. Defined.

Lemma one_pause_per_competitor_witness :
  pause_accepted Demo.world 2
  /\ slept (snd (scrape_all_competitors Demo.mixed Demo.world)) = [2; 2].
Proof.
  split; [exact two_seconds_accepted |].
  apply (one_pause_per_competitor Demo.mixed
           [("Down", Demo.down); ("Acme", Demo.acme)] (PyInt 2) 2
           Demo.world);
    [reflexivity | reflexivity | reflexivity | exact two_seconds_accepted].
Defined.

Lemma aggregation_footprint_witness :
  exists articles w',
    scrape_all_competitors Demo.mixed Demo.world = (Ok articles, w')
    /\ requests w' = 2%nat
    /\ ticks w' = length articles
    /\ length (stdout w') = 4%nat.
Proof.
  destruct (aggregation_footprint Demo.mixed
              [("Down", Demo.down); ("Acme", Demo.acme)] (PyInt 2) 2
              Demo.world eq_refl eq_refl eq_refl two_seconds_accepted)
    as (articles & w' & Hrun & Hreq & _ & Hticks & Hout).
  exists articles, w'. repeat split; assumption.
Defined.

Lemma sources_are_competitors_witness :
  exists articles w',
    scrape_all_competitors Demo.mixed Demo.world = (Ok articles, w')
    /\ Forall (fun a => source a ∈ ["Down"; "Acme"]) articles.
Proof.
  apply (sources_are_competitors Demo.mixed
           [("Down", Demo.down); ("Acme", Demo.acme)] (PyInt 2) 2
           Demo.world);
    [reflexivity | reflexivity | reflexivity | exact two_seconds_accepted].
Defined.

Lemma aggregation_bounded_witness :
  0 <= 5
  /\ exists articles w',
       scrape_all_competitors Demo.mixed Demo.world = (Ok articles, w')
       /\ (length articles <= 10)%nat.
Proof.
  split; [lia |].
  apply (aggregation_bounded Demo.mixed
           [("Down", Demo.down); ("Acme", Demo.acme)] (PyInt 2) 2 5
           Demo.world);
    [reflexivity | reflexivity | reflexivity | exact two_seconds_accepted
    | reflexivity | lia].
Defined.

Lemma no_competitors_no_effects_witness :
  scrape_all_competitors (PyDict [("competitors", PyDict [])]) Demo.world
  = (Ok [], Demo.world).
Proof.
  apply (no_competitors_no_effects (PyDict [("competitors", PyDict [])])
           Demo.world).
  reflexivity.
Defined.


Lemma unusable_max_articles_yields_nothing_witness :
  fst (scrape_competitor (PyDict []) "Acme" Demo.acme Demo.world) = Ok [].
Proof.
  apply (unusable_max_articles_yields_nothing (PyDict []) "Acme" Demo.acme
           Demo.world).
  simpl. exact I.
Defined.

Lemma acme_page_yields :
  page_yields Demo.acme Demo.world "https://acme.test/blog/index"
              Demo.acme_tags.
Proof.
  exists (mkResponse 200 "OK" "https://acme.test/blog/index" Demo.acme_page),
    Demo.acme_page, (PyDict [("title", PyStr "h3 a")]), "h3 a".
  repeat split; try reflexivity. left. cbn. lia.
Defined.

Lemma max_articles_none_or_negative_witness :
  fst (scrape_competitor (Demo.config [] (-1)) "Acme" Demo.acme Demo.world)
  = Ok [Cases.first_post; Cases.second_post].
Proof.
  destruct (max_articles_none_or_negative (Demo.config [] (-1)) "Acme"
              Demo.acme Demo.world "https://acme.test/blog/index"
              Demo.acme_tags acme_page_yields)
    as [_ Hneg].
  rewrite (Hneg (-1) eq_refl ltac:(lia)). reflexivity.
Defined.

Lemma http_error_yields_nothing_witness :
  400 <= 404 < 600
  /\ fst (scrape_competitor Demo.quiet "Gone" Demo.gone Demo.world) = Ok []
  /\ stdout (snd (scrape_competitor Demo.quiet "Gone" Demo.gone Demo.world))
     = ["Scraping Gone...";
        "Error scraping Gone: 404 Client Error: Not Found for url: https://gone.test/"].
Proof.
  split; [lia |].
  apply (http_error_yields_nothing Demo.quiet "Gone" Demo.gone Demo.world
           "https://gone.test/"
           (mkResponse 404 "Not Found" "https://gone.test/" ""));
    [reflexivity | reflexivity | cbn; lia].
Defined.

Lemma urls_empty_or_absolute_witness :
  exists articles w',
    scrape_competitor Demo.mixed "Acme" Demo.acme Demo.world
    = (Ok articles, w')
    /\ Forall (fun a => url a = "" \/ String.prefix "http" (url a) = true)
              articles.
Proof.
  apply (urls_empty_or_absolute Demo.mixed "Acme" Demo.acme Demo.world
           "https://acme.test/blog/index");
    reflexivity.
Defined.

Lemma save_report_writes_witness :
  exists w',
    save_report "digest" Demo.world
    = (Ok "reports/ai_competitive_report_2024-05-01.md", w')
    /\ files w' !! "reports/ai_competitive_report_2024-05-01.md"
       = Some "digest".
Proof.
  destruct (save_report_writes "digest" Demo.world)
    as (w' & Hrun & Hread & _).
  - reflexivity.
  - apply not_elem_of_empty.
  - exists w'. split; [exact Hrun | exact Hread].
Defined.

Lemma blocked_reports_directory_is_fatal_witness :
  exists e,
    exn_cls e = FileExistsError
    /\ fst (run_daily_scrape Demo.mixed Cases.blocked) = Raise e.
Proof.
  destruct (blocked_reports_directory_is_fatal Demo.mixed Cases.blocked
              (snd (scrape_all_competitors Demo.mixed
                      (started Cases.blocked)))
              Cases.first_post [Cases.second_post; Cases.blank_post] "x")
    as (e & Hcls & Hrun & _).
  - vm_compute. reflexivity.
  - reflexivity.
  - exists e. split; [exact Hcls |]. now rewrite Hrun.
Defined.

Lemma sections_follow_mapping_witness :
  exists articles w',
    scrape_all_competitors Demo.mixed Demo.world = (Ok articles, w')
    /\ group_by_source articles
       = [("Acme",
           [Cases.first_post; Cases.second_post; Cases.blank_post])].
Proof.
  destruct (sections_follow_mapping Demo.mixed
              [("Down", Demo.down); ("Acme", Demo.acme)] (PyInt 2) 2
              Demo.world eq_refl eq_refl eq_refl two_seconds_accepted)
    as (articles & w' & Hrun & Hsections).
  - apply (bool_decide_unpack _). vm_compute. exact I.
  - exists articles, w'. split; [exact Hrun |]. rewrite Hsections.
    vm_compute. reflexivity.
Defined.

Lemma run_completes_witness :
  exists w', run_daily_scrape Demo.mixed Demo.world = (Ok tt, w')
             /\ last (stdout w') = Some "Total articles found: 3".
Proof.
  destruct (run_completes Demo.mixed
              [("Down", Demo.down); ("Acme", Demo.acme)] (PyInt 2) 2
              Demo.world eq_refl eq_refl eq_refl two_seconds_accepted
              eq_refl)
    as (articles & w1 & w' & Hall & Hrun & Hlast).
  - intros today. apply not_elem_of_empty.
  - exists w'. split; [exact Hrun |]. rewrite Hlast.
    assert (Harticles :
              articles
              = [Cases.first_post; Cases.second_post; Cases.blank_post]).
    { assert (Hfst : fst (scrape_all_competitors Demo.mixed
                            (started Demo.world)) = Ok articles)
        by now rewrite Hall.
      vm_compute in Hfst. now injection Hfst as <-. }
    rewrite Harticles. reflexivity.
Defined.

Lemma unvalidated_config_fails_at_run_witness :
  main Cases.unconfigured
  = (Raise (mkExn KeyError "'competitors'"), started Cases.unconfigured).
Proof.
  apply (unvalidated_config_fails_at_run "{}" (PyDict [])
           (mkExn KeyError "'competitors'") Cases.unconfigured);
    reflexivity.
Defined.

End FurtherWitnesses.
